(** * Model-weights downloader ([colab_model_downloader.py])

    A shallow embedding of the [ModelDownloader] class: the fetcher
    ([download_file]), the verifier ([verify_file]), the extractor
    ([extract_archive]), the space preflight ([check_disk_space]), the
    category runner ([download_model_category]), the batch orchestrator
    ([download_all_models]), the removal of temporary files
    ([cleanup_temp_files]) and the status report ([get_model_info]),
    followed by the properties of the specification that concern them and
    by further properties of the same code.

    Modelling conventions.
    - Python floats are IEEE-754 binary64 values ([spec_float] with
      precision 53 and maximal exponent 1024); every arithmetic step of the
      source is the corresponding correctly rounded operation.
    - File and member names are [string]s; a [pathlib] path is the list of
      its components below the root.
    - The file system is a finite map from resolved absolute paths to files
      (no symbolic links, directories are not represented).
    - The network is an oracle giving, for the n-th request issued so far
      and its URL, what the transfer does.
    - Printed lines and requests are appended to an event log.
    - An exception that no handler of the source catches makes the
      function return [None]. *)

From Stdlib Require Import ZArith Lia List String Ascii Bool.
From Stdlib Require Import Floats.SpecFloat.
From stdpp Require Import base gmap strings list.

Open Scope Z_scope.

(** ** Python floats *)

Module PyFloat.

Definition prec : Z := 53.
Definition emax : Z := 1024.

Abbreviation float := spec_float.

(** [n / 2**k] for integers: Python's true division of integers is
    correctly rounded, and the divisor is a power of two, so the result is
    [n * 2^-k] rounded to nearest-even. *)
Definition truediv_pow2 (n : Z) (k : Z) : float :=
  binary_normalize prec emax n (- k) false.

Definition of_int (n : Z) : float := binary_normalize prec emax n 0 false.

Definition add (x y : float) : float := SFadd prec emax x y.
Definition sub (x y : float) : float := SFsub prec emax x y.
Definition div (x y : float) : float := SFdiv prec emax x y.
Definition abs (x : float) : float := SFabs x.

(** [x > y], [x >= y] and [x <= y]; all are false when an operand is
    NaN. *)
Definition gt (x y : float) : bool := SFltb y x.
Definition ge (x y : float) : bool := SFleb y x.
Definition le (x y : float) : bool := SFleb x y.

(** Truth value of a float in a boolean context: [x != 0.0]. *)
Definition truthy (x : float) : bool :=
  match x with
  | S754_zero _ => false
  | _ => true
  end.

Definition is_finite (x : float) : bool :=
  match x with
  | S754_zero _ | S754_finite _ _ _ => true
  | _ => false
  end.

Definition zero : float := S754_zero false.
Definition one : float := Eval vm_compute in of_int 1.
Definition two : float := Eval vm_compute in of_int 2.
(** The literal [0.2]: the double nearest to 1/5. *)
Definition lit_0_2 : float := Eval vm_compute in div (of_int 1) (of_int 5).
Definition lit_0_5 : float := Eval vm_compute in div (of_int 1) (of_int 2).
Definition lit_3_5 : float := Eval vm_compute in div (of_int 7) (of_int 2).

End PyFloat.

(** ** Strings *)

Module Str.

Local Open Scope string_scope.

(** [s.startswith(p)] *)
Definition startswith (p s : string) : bool := String.prefix p s.

(** [sub in s] *)
Fixpoint contains (sub s : string) : bool :=
  String.prefix sub s ||
  match s with
  | EmptyString => false
  | String _ t => contains sub t
  end.

(** [s.rfind(c)], with [None] for -1. *)
Fixpoint rfind (c : ascii) (s : string) : option nat :=
  match s with
  | EmptyString => None
  | String a t =>
      match rfind c t with
      | Some i => Some (S i)
      | None => if Ascii.eqb a c then Some 0%nat else None
      end
  end.

(** [s[i:]] and [s[:i]] for [0 <= i]. *)
Fixpoint skip (i : nat) (s : string) : string :=
  match i, s with
  | O, _ => s
  | S i', String _ t => skip i' t
  | S _, EmptyString => EmptyString
  end.

Fixpoint keep (i : nat) (s : string) : string :=
  match i, s with
  | O, _ => EmptyString
  | S i', String a t => String a (keep i' t)
  | S _, EmptyString => EmptyString
  end.

(** [s.split(c)] for a one-character separator. *)
Fixpoint split_on (c : ascii) (s : string) : list string :=
  match s with
  | EmptyString => [EmptyString]
  | String a t =>
      if Ascii.eqb a c then EmptyString :: split_on c t
      else match split_on c t with
           | [] => [String a EmptyString]
           | w :: ws => String a w :: ws
           end
  end.

End Str.

(** ** Paths ([pathlib.PurePosixPath], CPython 3.8 to 3.12) *)

Module Pathlib.

Local Open Scope string_scope.

(** An absolute path is the list of its components below the root. *)
Definition path := list string.

Definition trivial_part (c : string) : bool :=
  String.eqb c "" || String.eqb c ".".

(** Components of a path string: empty and ["."] components vanish,
    [".."] is kept. *)
Definition parse_parts (s : string) : list string :=
  List.filter (fun c => negb (trivial_part c)) (Str.split_on "/" s).

(** [p / s]: an absolute right operand replaces the left one. *)
Definition joinpath (p : path) (s : string) : path :=
  if Str.startswith "/" s then parse_parts s else (p ++ parse_parts s)%list.

(** [p.name] *)
Definition name (p : path) : string := List.last p "".

(** [p.parent] *)
Definition parent (p : path) : path := List.removelast p.

(** The suffix of a file name: from the last dot, unless that dot is the
    first or the last character. *)
Definition name_suffix (n : string) : string :=
  match Str.rfind "." n with
  | Some i =>
      if (0 <? i)%nat && (i <? String.length n - 1)%nat
      then Str.skip i n else ""
  | None => ""
  end.

Definition name_stem (n : string) : string :=
  match Str.rfind "." n with
  | Some i =>
      if (0 <? i)%nat && (i <? String.length n - 1)%nat
      then Str.keep i n else n
  | None => n
  end.

(** [p.suffix] and [p.stem] *)
Definition suffix (p : path) : string := name_suffix (name p).
Definition stem (p : path) : string := name_stem (name p).

(** [p.with_suffix(sfx)]; [None] stands for the [ValueError] raised on an
    invalid suffix or on a path without a name. *)
Definition with_suffix (p : path) (sfx : string) : option path :=
  if Str.contains "/" sfx then None
  else if (negb (String.eqb sfx "") && negb (Str.startswith "." sfx))
          || String.eqb sfx "."
  then None
  else
    let n := name p in
    if String.eqb n "" then None
    else
      let old := name_suffix n in
      let n' :=
        if String.eqb old "" then n ++ sfx
        else Str.keep (String.length n - String.length old) n ++ sfx in
      Some (parent p ++ [n'])%list.

End Pathlib.

(** ** Operating-system view of paths *)

Module OS.

Local Open Scope string_scope.
Import Pathlib.

(** One step of path resolution: empty and ["."] components stay in
    place, [".."] moves to the parent (the root is its own parent). *)
Definition resolve_step (acc : path) (c : string) : path :=
  if trivial_part c then acc
  else if String.eqb c ".." then List.removelast acc
  else (acc ++ [c])%list.

(** The file a component list designates. *)
Definition realpath (p : list string) : path :=
  List.fold_left resolve_step p [].

(** [os.path.join(base, n)] followed by resolution: an absolute [n]
    discards [base]. *)
Definition join_resolve (base : path) (n : string) : path :=
  if Str.startswith "/" n then realpath (Str.split_on "/" n)
  else realpath (base ++ Str.split_on "/" n)%list.

(** Where [zipfile] writes a member: empty, ["."] and [".."] components
    of its name are dropped before the name is joined to [base]. *)
Definition zip_target (base : path) (n : string) : path :=
  realpath
    (base ++ List.filter
               (fun c => negb (trivial_part c || String.eqb c ".."))
               (Str.split_on "/" n))%list.

(** [p] lies in the directory [dir] (or is [dir] itself). *)
Definition inside (dir p : path) : bool :=
  bool_decide (realpath dir `prefix_of` p).

End OS.

(** ** Files, the file system and the outside world *)

Import Pathlib.

(** What a file holds, as far as the archive libraries can tell: a tar
    archive or a zip archive with its regular-file members (name and size),
    a gzip stream with the file it decompresses to, or anything else. *)
Inductive body :=
| Opaque
| TarBody (members : list (string * Z))
| ZipBody (members : list (string * Z))
| GzipBody (inner_size : Z) (inner : body).

Record file := File { st_size : Z; content : body }.

(** Where the n-th request ends: before anything is written, in the middle
    of the stream, or with the whole payload. *)
Inductive response :=
| ConnectionError
| BrokenStream (partial : file)
| Complete (payload : file).

Definition network := nat -> string -> response.

(** Printed lines, requests and pauses. *)
Inductive event :=
| EvRequest (url : string)
| EvSleep (seconds : nat)
| EvEmptyRetry (filepath : path)
| EvAttemptFailed (attempt : nat)
| EvRetrying
| EvGaveUp (max_retries : nat)
| EvExtracting (name : string)
| EvSuspicious (member : string)
| EvUnknownFormat (filepath : path)
| EvExtracted (name : string)
| EvExtractError (filepath : path)
| EvSizeMismatch
| EvUnknownCategory (category : string)
| EvCategory (category : string)
| EvNoSpace
| EvAlreadyExists (filename : string)
| EvDownloading (filename : string)
| EvFailedExtract (filename : string)
| EvDownloaded (filename : string)
| EvVerificationFailed (filename : string)
| EvFailedDownload (filename : string)
| EvRequiredFailed (category : string)
| EvStart
| EvAllOk
| EvSomeFailed.

Record world := World {
  w_files : gmap path file;
  w_requests : nat;
  w_log : list event
}.

Definition print (e : event) (w : world) : world :=
  World (w_files w) (w_requests w) (w_log w ++ [e]).

Definition set_files (fs : gmap path file) (w : world) : world :=
  World fs (w_requests w) (w_log w).

(** [filepath.exists()], [open(filepath, 'wb')] with its writes, and
    [filepath.unlink()] / [src.rename(dst)], which raise on a missing
    file. *)
Definition exists_file (p : path) (w : world) : bool :=
  bool_decide (is_Some (w_files w !! OS.realpath p)).

Definition write_file (p : path) (f : file) (w : world) : world :=
  set_files (<[OS.realpath p := f]> (w_files w)) w.

Definition unlink (p : path) (w : world) : option world :=
  match w_files w !! OS.realpath p with
  | Some _ => Some (set_files (delete (OS.realpath p) (w_files w)) w)
  | None => None
  end.

Definition rename (src dst : path) (w : world) : option world :=
  match w_files w !! OS.realpath src with
  | Some f =>
      Some (set_files (<[OS.realpath dst := f]>
                         (delete (OS.realpath src) (w_files w))) w)
  | None => None
  end.

(** ** The catalog *)

Record file_info := FileInfo {
  url : string;
  extract : bool;                      (* [info.get("extract", False)] *)
  size_gb : option PyFloat.float;      (* [info.get("size_gb")] *)
  required : bool                      (* [info.get("required", False)] *)
}.

Record category_config := CategoryConfig {
  dir : path;
  files : list (string * file_info)
}.

Definition catalog := list (string * category_config).

(** [self.models[category]] *)
Fixpoint lookup_category (models : catalog) (category : string)
  : option category_config :=
  match models with
  | [] => None
  | (k, c) :: rest =>
      if String.eqb k category then Some c else lookup_category rest category
  end.

(** The catalog built by [ModelDownloader.__init__]. *)
Definition default_models (models_dir : path) : catalog :=
  [ ("alphafold"%string,
     CategoryConfig (joinpath models_dir "alphafold")
       [ ("params_model_1.npz"%string,
          FileInfo "https://storage.googleapis.com/alphafold/alphafold_params_2022-12-06.tar"
                   true (Some PyFloat.lit_3_5) true) ]);
    ("proteinmpnn"%string,
     CategoryConfig (joinpath models_dir "proteinmpnn")
       [ ("proteinmpnn_v_48_020.pt"%string,
          FileInfo "https://files.ipd.uw.edu/pub/training_sets/proteinmpnn_v_48_020.pt"
                   false (Some PyFloat.lit_0_5) true);
         ("ligandmpnn_v_32_010_25.pt"%string,
          FileInfo "https://files.ipd.uw.edu/pub/training_sets/ligandmpnn_v_32_010_25.pt"
                   false (Some PyFloat.lit_0_5) true) ]);
    ("rf_diffusion"%string,
     CategoryConfig (joinpath models_dir "rf_diffusion")
       [ ("rf_diffusion_all_atom.pt"%string,
          FileInfo "https://files.ipd.uw.edu/pub/RF-All-Atom/weights/rf_diffusion_all_atom.pt"
                   false (Some PyFloat.two) true) ]) ].

(** ** The downloader *)

Section Downloader.

Variable net : network.
(** [os.statvfs(self.models_dir)]: fragment size and available blocks, or
    [None] when the call raises. *)
Variable statvfs : gmap path file -> option (Z * Z).
Variable models : catalog.

(** [check_disk_space]: an overflowing quotient raises, and any exception
    answers [True]. *)
Definition check_disk_space (required_gb : PyFloat.float) (w : world)
  : bool :=
  match statvfs (w_files w) with
  | Some (f_frsize, f_bavail) =>
      match PyFloat.truediv_pow2 (f_frsize * f_bavail) 30 with
      | S754_infinity _ => true
      | free_gb => PyFloat.ge free_gb required_gb
      end
  | None => true
  end.

(** The [try] block of [download_file]: one request, streamed to
    [filepath].  [Raised] is a [RequestException] or an [IOError]. *)
Inductive attempt_result := Fetched | EmptyFile | Raised.

Definition try_download (url : string) (filepath : path) (w : world)
  : attempt_result * world :=
  let r := net (w_requests w) url in
  let w := World (w_files w) (S (w_requests w))
                 (w_log w ++ [EvRequest url]) in
  match r with
  | ConnectionError => (Raised, w)
  | BrokenStream partial => (Raised, write_file filepath partial w)
  | Complete payload =>
      let w := write_file filepath payload w in
      match w_files w !! OS.realpath filepath with
      | Some f => if 0 <? st_size f then (Fetched, w) else (EmptyFile, w)
      | None => (Raised, w)
      end
  end.

(** The retry loop of [download_file], over the remaining values of
    [attempt]. *)
Fixpoint download_loop (url : string) (filepath : path) (max_retries : nat)
    (attempts : list nat) (w : world) : bool * world :=
  match attempts with
  | [] => (false, w)
  | attempt :: rest =>
      match try_download url filepath w with
      | (Fetched, w) => (true, w)
      | (EmptyFile, w) =>
          let w := print (EvEmptyRetry filepath) w in
          let w := if (attempt <? max_retries - 1)%nat
                   then print (EvSleep 2) w else w in
          download_loop url filepath max_retries rest w
      | (Raised, w) =>
          let w := print (EvAttemptFailed (attempt + 1)) w in
          let w := if exists_file filepath w
                   then set_files
                          (delete (OS.realpath filepath) (w_files w)) w
                   else w in
          if (attempt <? max_retries - 1)%nat
          then download_loop url filepath max_retries rest
                 (print (EvSleep 5) (print EvRetrying w))
          else (false, print (EvGaveUp max_retries) w)
      end
  end.

Definition download_file (url : string) (filepath : path)
    (max_retries : nat) (w : world) : bool * world :=
  download_loop url filepath max_retries (seq 0 max_retries) w.

(** [verify_file] *)
Definition size_mismatch (st_size : Z) (expected_size_gb : option PyFloat.float)
  : bool :=
  let size_gb := PyFloat.truediv_pow2 st_size 30 in
  match expected_size_gb with
  | Some e =>
      PyFloat.truthy e
      && PyFloat.gt (PyFloat.abs (PyFloat.sub size_gb e)) PyFloat.lit_0_2
  | None => false
  end.

Definition verify_file (filepath : path)
    (expected_size_gb : option PyFloat.float) (w : world) : bool * world :=
  match w_files w !! OS.realpath filepath with
  | None => (false, w)
  | Some f =>
      if size_mismatch (st_size f) expected_size_gb
      then (false, print EvSizeMismatch w)
      else (true, w)
  end.

(** [extract_archive].  The loops over the members only print; the
    members handed to [extractall] are all the members of the archive.
    [tarfile.open(filepath, 'r:*')] reads plain and compressed tar
    archives; a tar member lands at [os.path.join(extract_dir, name)]
    ([tarfile] without an extraction filter, the default before CPython
    3.14), a zip member at its sanitised name.  Extraction of a readable
    archive is taken to succeed. *)
Definition suspicious (n : string) : bool :=
  Str.startswith "/" n || Str.contains ".." n.

Definition check_members (names : list string) (w : world) : world :=
  fold_left
    (fun w n => if suspicious n then print (EvSuspicious n) w else w)
    names w.

Definition tar_members (b : body) : option (list (string * Z)) :=
  match b with
  | TarBody ms => Some ms
  | GzipBody _ (TarBody ms) => Some ms
  | _ => None
  end.

Definition tar_open (filepath : path) (w : world)
  : option (list (string * Z)) :=
  match w_files w !! OS.realpath filepath with
  | Some f => tar_members (content f)
  | None => None
  end.

Definition zip_open (filepath : path) (w : world)
  : option (list (string * Z)) :=
  match w_files w !! OS.realpath filepath with
  | Some f =>
      match content f with
      | ZipBody ms => Some ms
      | _ => None
      end
  | None => None
  end.

Definition extractall (target : path -> string -> path)
    (extract_dir : path) (ms : list (string * Z)) (w : world) : world :=
  fold_left
    (fun w m =>
       set_files (<[target extract_dir (fst m) := File (snd m) Opaque]>
                    (w_files w)) w)
    ms w.

Definition extract_archive (filepath extract_dir : path) (w : world)
  : bool * world :=
  let w := print (EvExtracting (name filepath)) w in
  if String.eqb (suffix filepath) ".tar"
     || Str.contains ".tar." (name filepath)
  then
    match tar_open filepath w with
    | Some ms =>
        let w := check_members (map fst ms) w in
        let w := extractall OS.join_resolve extract_dir ms w in
        (true, print (EvExtracted (name filepath)) w)
    | None => (false, print (EvExtractError filepath) w)
    end
  else if String.eqb (suffix filepath) ".zip"
  then
    match zip_open filepath w with
    | Some ms =>
        let w := check_members (map fst ms) w in
        let w := extractall OS.zip_target extract_dir ms w in
        (true, print (EvExtracted (name filepath)) w)
    | None => (false, print (EvExtractError filepath) w)
    end
  else if String.eqb (suffix filepath) ".gz"
  then
    let output_file := joinpath extract_dir (stem filepath) in
    match w_files w !! OS.realpath filepath with
    | Some f =>
        let w := write_file output_file (File 0 Opaque) w in
        match content f with
        | GzipBody n inner =>
            let w := write_file output_file (File n inner) w in
            (true, print (EvExtracted (name filepath)) w)
        | _ => (false, print (EvExtractError filepath) w)
        end
    | None => (false, print (EvExtractError filepath) w)
    end
  else (false, print (EvUnknownFormat filepath) w).

(** *** The category runner *)

(** Which branch of the loop body an entry took. *)
Inductive outcome :=
| AlreadyValid
| Promoted
| ExtractedOk
| ExtractFailed
| VerifyFailed
| DownloadFailed.

Definition failed (o : outcome) : bool :=
  match o with
  | ExtractFailed | VerifyFailed | DownloadFailed => true
  | AlreadyValid | Promoted | ExtractedOk => false
  end.

(** The two flags of the loop. *)
Record flags := Flags { success : bool; required_success : bool }.

Definition fail_entry (is_required : bool) (fl : flags) : flags :=
  Flags false (if is_required then false else required_success fl).

(** The body of the loop over [model_config["files"].items()].  [None]
    is an exception that nothing catches. *)
Definition process_file (model_dir : path) (filename : string)
    (info : file_info) (fl : flags) (w : world)
  : option (outcome * flags * world) :=
  let filepath := joinpath model_dir filename in
  let is_required := required info in
  let '(valid, w) := verify_file filepath (size_gb info) w in
  if valid then Some (AlreadyValid, fl, print (EvAlreadyExists filename) w)
  else
    let w := print (EvDownloading filename) w in
    match with_suffix filepath (suffix filepath ++ ".tmp")%string with
    | None => None
    | Some temp_filepath =>
        let '(fetched, w) := download_file (url info) temp_filepath 3 w in
        if fetched then
          let '(valid, w) := verify_file temp_filepath (size_gb info) w in
          if valid then
            if extract info then
              let '(extracted, w) :=
                extract_archive temp_filepath model_dir w in
              if extracted then
                match unlink temp_filepath w with
                | Some w => Some (ExtractedOk, fl, w)
                | None => None
                end
              else
                Some (ExtractFailed, fail_entry is_required fl,
                      print (EvFailedExtract filename) w)
            else
              match rename temp_filepath filepath w with
              | Some w =>
                  Some (Promoted, fl, print (EvDownloaded filename) w)
              | None => None
              end
          else
            Some (VerifyFailed, fail_entry is_required fl,
                  print (EvVerificationFailed filename) w)
        else
          Some (DownloadFailed, fail_entry is_required fl,
                print (EvFailedDownload filename) w)
    end.

(** The loop, with the branch each entry took. *)
Fixpoint process_files (model_dir : path)
    (entries : list (string * file_info)) (fl : flags) (w : world)
  : option (list (string * outcome) * flags * world) :=
  match entries with
  | [] => Some ([], fl, w)
  | (filename, info) :: rest =>
      match process_file model_dir filename info fl w with
      | None => None
      | Some (o, fl, w) =>
          match process_files model_dir rest fl w with
          | None => None
          | Some (os, fl, w) => Some ((filename, o) :: os, fl, w)
          end
      end
  end.

(** [sum(info.get("size_gb", 0) for info in ...)] *)
Definition size_or_zero (info : file_info) : PyFloat.float :=
  match size_gb info with
  | Some s => s
  | None => PyFloat.zero
  end.

Definition total_size_gb (entries : list (string * file_info))
  : PyFloat.float :=
  fold_left (fun acc e => PyFloat.add acc (size_or_zero (snd e)))
    entries PyFloat.zero.

(** What [download_model_category] returns, with the per-entry
    branches when the loop ran. *)
Record category_result := CategoryResult {
  returned : bool;
  report : list (string * outcome)
}.

Definition download_model_category (category : string) (w : world)
  : option (category_result * world) :=
  match lookup_category models category with
  | None =>
      Some (CategoryResult false [], print (EvUnknownCategory category) w)
  | Some model_config =>
      let model_dir := dir model_config in
      let w := print (EvCategory category) w in
      let total_size := total_size_gb (files model_config) in
      if negb (check_disk_space (PyFloat.add total_size PyFloat.one) w)
      then Some (CategoryResult false [], print EvNoSpace w)
      else
        match process_files model_dir (files model_config)
                (Flags true true) w with
        | None => None
        | Some (os, fl, w) =>
            let w := if negb (required_success fl)
                     then print (EvRequiredFailed category) w else w in
            Some (CategoryResult (required_success fl) os, w)
        end
  end.

(** *** The batch orchestrator *)

Definition all_sizes_gb : PyFloat.float :=
  fold_left
    (fun acc c =>
       fold_left (fun acc e => PyFloat.add acc (size_or_zero (snd e)))
         (files (snd c)) acc)
    models PyFloat.zero.

(** The loop over [self.models.keys()], with what each category
    returned. *)
Fixpoint run_categories (categories : list string)
    (all_required_success : bool) (w : world)
  : option (list (string * category_result) * bool * world) :=
  match categories with
  | [] => Some ([], all_required_success, w)
  | category :: rest =>
      match download_model_category category w with
      | None => None
      | Some (r, w) =>
          let all_required_success :=
            if negb (returned r) then false else all_required_success in
          match run_categories rest all_required_success w with
          | None => None
          | Some (rs, b, w) => Some ((category, r) :: rs, b, w)
          end
      end
  end.

Definition download_all_models (w : world)
  : option (bool * list (string * category_result) * world) :=
  let w := print EvStart w in
  let total_size := all_sizes_gb in
  if negb (check_disk_space (PyFloat.add total_size PyFloat.two) w)
  then Some (false, [], print EvNoSpace w)
  else
    match run_categories (map fst models) true w with
    | None => None
    | Some (rs, all_required_success, w) =>
        let w := if all_required_success
                 then print EvAllOk w else print EvSomeFailed w in
        Some (all_required_success, rs, w)
    end.

End Downloader.

(** What [verify_file] answers, as a function of the files. *)
Definition valid_file (fs : gmap path file) (p : path)
    (expected_size_gb : option PyFloat.float) : bool :=
  match fs !! OS.realpath p with
  | Some f => negb (size_mismatch (st_size f) expected_size_gb)
  | None => false
  end.

(** The temporary path the runner downloads [filename] to. *)
Definition temp_path_of (model_dir : path) (filename : string)
  : option path :=
  with_suffix (joinpath model_dir filename)
    (suffix (joinpath model_dir filename) ++ ".tmp")%string.

(** A file name that is a single, ordinary path component, and a
    directory whose components all are. *)
Definition simple_name (n : string) : bool :=
  negb (String.eqb n "") && negb (String.eqb n ".")
  && negb (String.eqb n "..") && negb (Str.contains "/" n).

Definition clean_dir (d : path) : bool := forallb simple_name d.

(** Number of binary digits of a mantissa. *)
Definition digits (p : positive) : Z := Zpos (digits2_pos p).

Definition is_nan (x : PyFloat.float) : bool :=
  match x with
  | S754_nan => true
  | _ => false
  end.


Definition transport_failure (r : response) : bool :=
  match r with
  | ConnectionError | BrokenStream _ => true
  | Complete _ => false
  end.





(** ** Scenarios *)

Module Scenario.

Local Open Scope string_scope.

Definition models_dir : path := ["content"; "models"].
Definition empty_world : world := World ∅ 0 [].

(** A network that answers every request the same way. *)
Definition always (r : response) : network := fun _ _ => r.

Definition statvfs_raises : gmap path file -> option (Z * Z) :=
  fun _ => None.
Definition statvfs_free (f_frsize f_bavail : Z)
  : gmap path file -> option (Z * Z) :=
  fun _ => Some (f_frsize, f_bavail).

Definition step_outcome (r : option (outcome * flags * world)) : outcome :=
  match r with Some (o, _, _) => o | None => AlreadyValid end.
Definition step_flags (r : option (outcome * flags * world)) : flags :=
  match r with Some (_, fl, _) => fl | None => Flags true true end.
Definition step_world (r : option (outcome * flags * world)) : world :=
  match r with Some (_, _, w) => w | None => empty_world end.

Definition run_result (r : option (category_result * world))
  : category_result :=
  match r with Some (c, _) => c | None => CategoryResult false [] end.
Definition run_world (r : option (category_result * world)) : world :=
  match r with Some (_, w) => w | None => empty_world end.

(** The alphafold entry of the shipped catalog, and an archive of the
    declared size. *)
Definition alphafold_dir : path := joinpath models_dir "alphafold".
Definition alphafold_info : file_info :=
  FileInfo "https://storage.googleapis.com/alphafold/alphafold_params_2022-12-06.tar"
           true (Some PyFloat.lit_3_5) true.
Definition alphafold_archive : file :=
  File 3758096384 (TarBody [("params_model_1.npz", 1024)]).
Definition alphafold_step : option (outcome * flags * world) :=
  process_file (always (Complete alphafold_archive)) alphafold_dir
    "params_model_1.npz" alphafold_info (Flags true true) empty_world.

(** A tar archive with a member that climbs out of the target. *)
Definition escaping_archive : file :=
  File 10240 (TarBody [("../../escape.txt", 5); ("params_model_1.npz", 7)]).
Definition escaping_path : path := joinpath alphafold_dir "weights.tar".
Definition escaping_world : world :=
  World {[ OS.realpath escaping_path := escaping_archive ]} 0 [].

(** A source that answers with an empty body. *)
Definition empty_body : network := always (Complete (File 0 Opaque)).

(** A one-entry category; [bundle.tar] is an archive to extract. *)
Definition bundle_info : file_info :=
  FileInfo "https://example.org/bundle.tar" true None true.
Definition bundle_models : catalog :=
  [("weights", CategoryConfig (joinpath models_dir "weights")
                 [("bundle.tar", bundle_info)])].
Definition bundle_archive : file :=
  File 2048 (TarBody [("weights.bin", 1024)]).
Definition bundle_first : option (category_result * world) :=
  download_model_category (always (Complete bundle_archive)) statvfs_raises
    bundle_models "weights" empty_world.
Definition bundle_second : option (category_result * world) :=
  download_model_category (always (Complete bundle_archive)) statvfs_raises
    bundle_models "weights" (run_world bundle_first).

(** A one-entry category without a declared size, whose file is already
    there but empty. *)
Definition notes_info (is_required : bool) : file_info :=
  FileInfo "https://example.org/notes.txt" false None is_required.
Definition notes_models (is_required : bool) : catalog :=
  [("notes", CategoryConfig (joinpath models_dir "notes")
               [("notes.txt", notes_info is_required)])].
Definition notes_path : path :=
  joinpath (joinpath models_dir "notes") "notes.txt".
Definition notes_world (f : file) : world :=
  World {[ OS.realpath notes_path := f ]} 0 [].

(** A file of one GiB. *)
Definition one_gib : file := File (2 ^ 30) Opaque.

(** The proteinmpnn category of the shipped catalog and a payload of
    the declared size. *)
Definition half_gib : file := File (2 ^ 29) Opaque.
Definition proteinmpnn_run : option (category_result * world) :=
  download_model_category (always (Complete half_gib)) statvfs_raises
    (default_models models_dir) "proteinmpnn" empty_world.
Definition proteinmpnn_step : option (outcome * flags * world) :=
  process_file (always (Complete half_gib))
    (joinpath models_dir "proteinmpnn") "proteinmpnn_v_48_020.pt"
    (FileInfo "https://files.ipd.uw.edu/pub/training_sets/proteinmpnn_v_48_020.pt"
              false (Some PyFloat.lit_0_5) true)
    (Flags true true) empty_world.


(** A category whose two files are fetched and renamed. *)
Definition plain_config : category_config :=
  CategoryConfig (joinpath models_dir "plain")
    [("a.pt", FileInfo "https://example.org/a.pt" false
                (Some PyFloat.lit_0_5) true);
     ("b.pt", FileInfo "https://example.org/b.pt" false None false)].
Definition plain_models : catalog := [("plain", plain_config)].
Definition plain_first : option (category_result * world) :=
  download_model_category (always (Complete half_gib)) statvfs_raises
    plain_models "plain" empty_world.

End Scenario.

(** ** Accounting *)

(** An entry the loop tried to fetch, and how many of them a report has. *)
Definition attempted (o : outcome) : bool :=
  match o with
  | AlreadyValid => false
  | _ => true
  end.

Definition attempts_of (os : list (string * outcome)) : nat :=
  length (List.filter (fun e => attempted (snd e)) os).

Definition batch_attempts (rs : list (string * category_result)) : nat :=
  fold_right (fun cr acc => (attempts_of (report (snd cr)) + acc)%nat) 0%nat rs.

(** ** Housekeeping: temporary files and status *)

(** [s.endswith(sfx)]; a name matches the pattern ["*.tmp"] exactly when
    it ends with [".tmp"]. *)
Definition ends_with (sfx s : string) : bool :=
  (String.length sfx <=? String.length s)%nat
  && String.eqb (Str.skip (String.length s - String.length sfx) s) sfx.

(** [k] without the leading [d], when [d] leads it. *)
Fixpoint strip_prefix (d k : path) : option path :=
  match d, k with
  | [], _ => Some k
  | c :: d', c' :: k' => if String.eqb c c' then strip_prefix d' k' else None
  | _ :: _, [] => None
  end.

(** The files [cleanup_temp_files] unlinks: those directly inside a
    subdirectory of [models_dir] whose name matches ["*.tmp"]. *)
Definition temp_leftover (models_dir : path) (k : path) : bool :=
  match strip_prefix (OS.realpath models_dir) k with
  | Some [_; n] => ends_with ".tmp" n
  | _ => false
  end.

(** A directory matching ["*.tmp"] inside a subdirectory of [models_dir]:
    [unlink] raises on it. *)
Definition temp_directory (models_dir : path) (k : path) : bool :=
  match strip_prefix (OS.realpath models_dir) k with
  | Some (_ :: n :: _ :: _) => ends_with ".tmp" n
  | _ => false
  end.

(** [cleanup_temp_files], with the names it prints.  A directory is there
    when a file lies below it; [iterdir] raises when [models_dir] is a
    file. *)
Definition cleanup_temp_files (models_dir : path) (w : world)
  : option (list string * world) :=
  if bool_decide (is_Some (w_files w !! OS.realpath models_dir))
     || existsb (fun kv => temp_directory models_dir (fst kv))
          (map_to_list (w_files w))
  then None
  else
    Some (map (fun kv => name (fst kv))
            (List.filter (fun kv => temp_leftover models_dir (fst kv))
               (map_to_list (w_files w))),
          set_files
            (filter (fun kv => temp_leftover models_dir (fst kv) = false)
               (w_files w)) w).

(** One file of [get_model_info]. *)
Record file_status := FileStatus {
  fs_exists : bool;
  fs_size_gb : PyFloat.float;
  fs_path : path
}.

Record category_status := CategoryStatus {
  cs_dir : path;
  cs_files : list (string * file_status);
  cs_total_size_gb : PyFloat.float
}.

Definition file_status_of (model_dir : path) (filename : string) (w : world)
  : file_status :=
  let filepath := joinpath model_dir filename in
  match w_files w !! OS.realpath filepath with
  | Some f => FileStatus true (PyFloat.truediv_pow2 (st_size f) 30) filepath
  | None => FileStatus false PyFloat.zero filepath
  end.

(** [get_model_info] *)
Definition get_model_info (models : catalog) (w : world)
  : list (string * category_status) :=
  map (fun c =>
         let statuses :=
           map (fun e => (fst e, file_status_of (dir (snd c)) (fst e) w))
             (files (snd c)) in
         (fst c,
          CategoryStatus (dir (snd c)) statuses
            (fold_left
               (fun acc s =>
                  if fs_exists (snd s)
                  then PyFloat.add acc (fs_size_gb (snd s)) else acc)
               statuses PyFloat.zero)))
    models.

(** The verdict [print_status] shows for a category: complete when all
    its files exist. *)
Definition all_exist (s : category_status) : bool :=
  forallb (fun e => fs_exists (snd e)) (cs_files s).

(** Further scenarios. *)
Module Housekeeping.

Local Open Scope string_scope.
Import Scenario.

(** What a failed run of the shipped catalog leaves behind. *)
Definition littered_world : world :=
  World (<[ ["content"; "models"; "alphafold"; "params_model_1.npz.tmp"]
            := alphafold_archive ]>
         (<[ ["content"; "models"; "proteinmpnn"; "proteinmpnn_v_48_020.pt"]
             := half_gib ]>
          (<[ ["content"; "notes.tmp"] := File 1 Opaque ]> ∅)))
        3 [].

Definition cleanup_result (r : option (list string * world)) : world :=
  match r with Some (_, w) => w | None => empty_world end.

(** A zip archive with a member that tries to climb out. *)
Definition escaping_zip : file :=
  File 4096 (ZipBody [("../../escape.txt", 5); ("docs/readme.txt", 7)]).
Definition zip_path : path := joinpath alphafold_dir "bundle.zip".
Definition zip_world : world :=
  World {[ OS.realpath zip_path := escaping_zip ]} 0 [].

(** The batch over the two-file catalog, and what it returns. *)
Definition batch_first : option (bool * list (string * category_result) * world) :=
  download_all_models (always (Complete half_gib)) statvfs_raises
    plain_models empty_world.
Definition batch_report (r : option (bool * list (string * category_result) * world))
  : list (string * category_result) :=
  match r with Some (_, rs, _) => rs | None => [] end.
Definition batch_verdict (r : option (bool * list (string * category_result) * world))
  : bool :=
  match r with Some (b, _, _) => b | None => false end.
Definition batch_world (r : option (bool * list (string * category_result) * world))
  : world :=
  match r with Some (_, _, w) => w | None => empty_world end.


(** The status of the two-file category after its first run. *)
Definition plain_status : category_status :=
  match get_model_info plain_models (run_world plain_first) with
  | (_, s) :: _ => s
  | [] => CategoryStatus [] [] PyFloat.zero
  end.

End Housekeeping.

(** * Facts *)

(** ** Strings and paths *)

Section StringFacts.

Local Open Scope string_scope.

Lemma append_cons x (a b : string) : String x a ++ b = String x (a ++ b).
Proof. reflexivity. Qed.

Lemma append_nil_l (b : string) : "" ++ b = b.
Proof. reflexivity. Qed.

Lemma append_assoc (a b c : string) : (a ++ b) ++ c = a ++ (b ++ c).
Proof.
  induction a as [|x a IH]; [reflexivity|].
  now rewrite !append_cons, IH.
Qed.

Lemma length_append (a b : string) :
  String.length (a ++ b) = (String.length a + String.length b)%nat.
Proof.
  induction a as [|x a IH]; [reflexivity|].
  rewrite append_cons. simpl. now rewrite IH.
Qed.

Lemma keep_skip i n : Str.keep i n ++ Str.skip i n = n.
Proof.
  revert n; induction i as [|i IH]; intros [|a t]; simpl; try reflexivity.
  now rewrite append_cons, IH.
Qed.

Lemma length_skip i n :
  String.length (Str.skip i n) = (String.length n - i)%nat.
Proof.
  revert n; induction i as [|i IH]; intros [|a t]; simpl;
    try reflexivity; apply IH.
Qed.

Lemma skip_length_append n s : Str.skip (String.length n) (n ++ s) = s.
Proof.
  induction n as [|a t IH]; [now destruct s|].
  rewrite append_cons. exact IH.
Qed.

Lemma rfind_lt c n i : Str.rfind c n = Some i -> (i < String.length n)%nat.
Proof.
  revert i; induction n as [|a t IH]; simpl; intros i H; [discriminate|].
  destruct (Str.rfind c t) as [j|].
  - injection H as <-. specialize (IH j eq_refl). lia.
  - destruct (Ascii.eqb a c); [injection H as <-; lia | discriminate].
Qed.

Lemma rfind_skip c n i :
  Str.rfind c n = Some i -> exists r, Str.skip i n = String c r.
Proof.
  revert i; induction n as [|a t IH]; simpl; intros i H; [discriminate|].
  destruct (Str.rfind c t) as [j|].
  - injection H as <-. simpl. now apply IH.
  - destruct (Ascii.eqb_spec a c) as [->|]; [|discriminate].
    injection H as <-. simpl. eauto.
Qed.

Lemma rfind_append_tmp n : Str.rfind "." (n ++ ".tmp") = Some (String.length n).
Proof.
  induction n as [|a t IH]; [reflexivity|].
  rewrite append_cons. simpl. now rewrite IH.
Qed.

Lemma name_suffix_tmp n : n <> "" -> name_suffix (n ++ ".tmp") = ".tmp".
Proof.
  intros Hn. unfold name_suffix. rewrite rfind_append_tmp, length_append.
  destruct n as [|a t]; [congruence|].
  replace (0 <? String.length (String a t))%nat with true
    by (symmetry; apply Nat.ltb_lt; simpl; lia).
  replace (String.length (String a t) <? String.length (String a t) + String.length ".tmp" - 1)%nat
    with true by (symmetry; apply Nat.ltb_lt; simpl; lia).
  simpl andb. cbv iota. apply skip_length_append.
Qed.

(** The temporary path of the runner is the final path with [".tmp"]
    appended to its name. *)
Lemma temp_path_shape p t :
  with_suffix p (suffix p ++ ".tmp") = Some t ->
  name p <> "" /\ t = (parent p ++ [name p +:+ ".tmp"])%list.
Proof.
  unfold with_suffix, suffix.
  destruct (Str.contains "/" (name_suffix (name p) ++ ".tmp")); [discriminate|].
  destruct (_ || _); [discriminate|].
  destruct (String.eqb_spec (name p) "") as [|Hn]; [discriminate|].
  intros H; injection H as <-. split; [exact Hn|]. do 2 f_equal.
  destruct (String.eqb_spec (name_suffix (name p)) "") as [->|Hs]; [reflexivity|].
  unfold name_suffix in *.
  destruct (Str.rfind "." (name p)) as [i|] eqn:Hr; [|congruence].
  destruct (_ && _); [|congruence].
  rewrite length_skip. pose proof (rfind_lt _ _ _ Hr).
  replace (String.length (name p) - (String.length (name p) - i))%nat with i by lia.
  now rewrite <- append_assoc, keep_skip.
Qed.

Lemma name_snoc (p : path) n : name (p ++ [n])%list = n.
Proof. apply last_last. Qed.

Lemma temp_path_suffix p t :
  with_suffix p (suffix p ++ ".tmp") = Some t ->
  name t = name p ++ ".tmp" /\ suffix t = ".tmp".
Proof.
  intros H. apply temp_path_shape in H as [Hn ->].
  unfold suffix. rewrite name_snoc. split; [reflexivity|].
  now apply name_suffix_tmp.
Qed.

Lemma contains_char_cons c a t :
  Str.contains (String c "") (String a t)
  = (if ascii_dec c a then true else false) || Str.contains (String c "") t.
Proof.
  cbn [Str.contains String.prefix]. destruct (ascii_dec c a); [|reflexivity].
  now destruct t.
Qed.

Lemma contains_char_nil c : Str.contains (String c "") "" = false.
Proof. reflexivity. Qed.

Lemma contains_char_append c s1 s2 :
  Str.contains (String c "") (s1 ++ s2)
  = Str.contains (String c "") s1 || Str.contains (String c "") s2.
Proof.
  induction s1 as [|a t IH]; [reflexivity|].
  rewrite append_cons, !contains_char_cons, IH. now rewrite orb_assoc.
Qed.

Lemma contains_char_skip c i s :
  Str.contains (String c "") s = false ->
  Str.contains (String c "") (Str.skip i s) = false.
Proof.
  revert s. induction i as [|i IH]; intros [|a t] H; cbn [Str.skip]; try exact H.
  rewrite contains_char_cons in H. apply orb_false_iff in H as [_ H]. now apply IH.
Qed.

Lemma split_on_absent c s :
  Str.contains (String c "") s = false -> Str.split_on c s = [s].
Proof.
  induction s as [|a t IH]; intros H; [reflexivity|].
  rewrite contains_char_cons in H. apply orb_false_iff in H as [Ha Ht].
  cbn [Str.split_on].
  destruct (Ascii.eqb_spec a c) as [->|Hne].
  - destruct (ascii_dec c c); [discriminate | congruence].
  - now rewrite (IH Ht).
Qed.

Lemma simple_name_inv n :
  simple_name n = true ->
  n <> "" /\ n <> "." /\ n <> ".." /\ Str.contains "/" n = false.
Proof.
  unfold simple_name. rewrite !andb_true_iff, !negb_true_iff.
  intros [[[H1 H2] H3] H4]. repeat split; try assumption;
    now apply String.eqb_neq.
Qed.

Lemma joinpath_simple d n :
  simple_name n = true -> joinpath d n = (d ++ [n])%list.
Proof.
  intros (H1 & H2 & H3 & H4)%simple_name_inv. unfold joinpath, Str.startswith.
  assert (Hp : String.prefix "/" n = false).
  { destruct n as [|a t]; [reflexivity|].
    change (Str.contains "/" (String a t)) with
      (Str.contains (String "/" "") (String a t)) in H4.
    rewrite contains_char_cons in H4. apply orb_false_iff in H4 as [Ha _].
    revert Ha. cbn [String.prefix]. now destruct (ascii_dec "/" a). }
  rewrite Hp. unfold parse_parts. rewrite (split_on_absent "/" n H4).
  cbn [List.filter]. unfold trivial_part.
  apply String.eqb_neq in H1, H2. now rewrite H1, H2.
Qed.

Lemma tmp_not_special n : n <> "" ->
  trivial_part (n ++ ".tmp") = false /\ String.eqb (n ++ ".tmp") ".." = false.
Proof.
  intros Hn. unfold trivial_part.
  assert (H : forall s, (String.length s < 5)%nat -> String.eqb (n ++ ".tmp") s = false).
  { intros s Hs. apply String.eqb_neq. intros E.
    apply (f_equal String.length) in E. rewrite length_append in E.
    destruct n; [congruence|]. cbn in E. lia. }
  rewrite !H by (cbn; lia). easy.
Qed.

Lemma resolve_ordinary acc p :
  Forall (fun c => trivial_part c = false /\ String.eqb c ".." = false) p ->
  fold_left OS.resolve_step p acc = (acc ++ p)%list.
Proof.
  revert acc. induction p as [|c p IH]; intros acc H.
  - now rewrite app_nil_r.
  - apply Forall_cons in H as [[H1 H2] Hp]. cbn [fold_left].
    unfold OS.resolve_step at 2. rewrite H1, H2, IH by exact Hp.
    now rewrite <- app_assoc.
Qed.

Lemma clean_dir_ordinary d :
  clean_dir d = true ->
  Forall (fun c => trivial_part c = false /\ String.eqb c ".." = false) d.
Proof.
  unfold clean_dir. rewrite forallb_forall. intros H.
  apply List.Forall_forall. intros c Hc.
  apply H, simple_name_inv in Hc as (H1 & H2 & H3 & _).
  unfold trivial_part. apply String.eqb_neq in H1, H2, H3.
  now rewrite H1, H2, H3.
Qed.

(** In a clean directory the final and the temporary path of a simple
    name are what they look like. *)
Lemma realpath_final d n :
  clean_dir d = true -> simple_name n = true ->
  OS.realpath (joinpath d n) = (d ++ [n])%list.
Proof.
  intros Hd Hn. rewrite (joinpath_simple d n Hn). unfold OS.realpath.
  apply (resolve_ordinary [] (d ++ [n])%list).
  apply Forall_app. split; [now apply clean_dir_ordinary|].
  apply Forall_cons. split; [|constructor].
  apply simple_name_inv in Hn as (H1 & H2 & H3 & _).
  unfold trivial_part. apply String.eqb_neq in H1, H2, H3.
  now rewrite H1, H2, H3.
Qed.

Lemma temp_path_simple d n :
  simple_name n = true ->
  temp_path_of d n = Some (d ++ [n +:+ ".tmp"])%list.
Proof.
  intros Hn. pose proof (simple_name_inv n Hn) as (H1 & H2 & H3 & H4).
  unfold temp_path_of. rewrite (joinpath_simple d n Hn).
  destruct (with_suffix (d ++ [n])%list (suffix (d ++ [n])%list ++ ".tmp"))
    as [t|] eqn:Ht.
  - apply temp_path_shape in Ht as [_ ->].
    unfold parent. now rewrite removelast_last, name_snoc.
  - exfalso. revert Ht. unfold with_suffix, suffix. rewrite name_snoc.
    change ".tmp" with (String "." "tmp").
    assert (Hs : Str.contains "/" (name_suffix n ++ String "." "tmp") = false).
    { change "/" with (String "/" ""). rewrite contains_char_append.
      apply orb_false_iff. split; [|reflexivity].
      unfold name_suffix. destruct (Str.rfind "." n); [|reflexivity].
      destruct (_ && _); [|reflexivity]. now apply contains_char_skip. }
    rewrite Hs.
    assert (Hd : Str.startswith "." (name_suffix n ++ String "." "tmp") = true).
    { unfold name_suffix. destruct (Str.rfind "." n) as [i|] eqn:Hr; [|reflexivity].
      destruct (_ && _); [|reflexivity].
      apply rfind_skip in Hr as [r ->]. rewrite append_cons. cbn.
      now destruct r. }
    rewrite Hd.
    assert (He : forall s, (String.length s < 4)%nat ->
                 String.eqb (name_suffix n ++ String "." "tmp") s = false).
    { intros s Hlen. apply String.eqb_neq. intros E.
      apply (f_equal String.length) in E. rewrite length_append in E.
      cbn in E. lia. }
    rewrite !He by (cbn; lia). cbn [negb andb orb].
    apply String.eqb_neq in H1. rewrite H1. discriminate.
Qed.

Lemma realpath_temp d n :
  clean_dir d = true -> simple_name n = true ->
  OS.realpath (d ++ [n +:+ ".tmp"])%list = (d ++ [n +:+ ".tmp"])%list.
Proof.
  intros Hd Hn. unfold OS.realpath.
  apply (resolve_ordinary [] (d ++ [n +:+ ".tmp"])%list).
  apply Forall_app. split; [now apply clean_dir_ordinary|].
  apply Forall_cons. split; [|constructor].
  apply tmp_not_special. now apply simple_name_inv in Hn as (H1 & _).
Qed.

Lemma tmp_differs n : n +:+ ".tmp" <> n.
Proof.
  intros E. apply (f_equal String.length) in E.
  rewrite length_append in E. cbn in E. lia.
Qed.

End StringFacts.

(** ** Exact binary64 arithmetic *)

Section FloatFacts.

Lemma digits_bounds p : 2 ^ (digits p - 1) <= Zpos p < 2 ^ digits p.
Proof.
  unfold digits. induction p as [p IH|p IH|]; cbn [digits2_pos].
  - rewrite Pos2Z.inj_succ.
    replace (Z.succ (Zpos (digits2_pos p)) - 1)
      with (Z.succ (Zpos (digits2_pos p) - 1)) by lia.
    rewrite !Z.pow_succ_r by lia.
    destruct IH as [IH1 IH2]. revert IH1 IH2.
    generalize (2 ^ (Zpos (digits2_pos p) - 1)), (2 ^ Zpos (digits2_pos p)).
    intros; lia.
  - rewrite Pos2Z.inj_succ.
    replace (Z.succ (Zpos (digits2_pos p)) - 1)
      with (Z.succ (Zpos (digits2_pos p) - 1)) by lia.
    rewrite !Z.pow_succ_r by lia.
    destruct IH as [IH1 IH2]. revert IH1 IH2.
    generalize (2 ^ (Zpos (digits2_pos p) - 1)), (2 ^ Zpos (digits2_pos p)).
    intros; lia.
  - cbn. lia.
Qed.

Lemma digits_unique p k : 2 ^ (k - 1) <= Zpos p < 2 ^ k -> digits p = k.
Proof.
  intros [Hlo Hhi]. pose proof (digits_bounds p) as [Dlo Dhi].
  assert (Hd : 0 < digits p) by (unfold digits; lia).
  assert (Hk : 0 < k).
  { destruct (Z.lt_ge_cases 0 k) as [|Hk0]; [assumption|].
    destruct (Z.eq_dec k 0) as [->|]; [cbn in Hhi; lia|].
    rewrite Z.pow_neg_r in Hhi by lia. lia. }
  destruct (Z.lt_trichotomy (digits p) k) as [Hlt|[Heq|Hgt]]; [|exact Heq|].
  - assert (2 ^ digits p <= 2 ^ (k - 1)) by (apply Z.pow_le_mono_r; lia). lia.
  - assert (2 ^ k <= 2 ^ (digits p - 1)) by (apply Z.pow_le_mono_r; lia). lia.
Qed.

Lemma iter_xO_value p j : Zpos (Pos.iter xO p j) = Zpos p * 2 ^ Zpos j.
Proof.
  induction j as [|j IH] using Pos.peano_ind.
  - cbn. lia.
  - rewrite Pos.iter_succ, Pos2Z.inj_succ, Z.pow_succ_r by lia.
    change (Zpos (Pos.iter xO p j)~0) with (2 * Zpos (Pos.iter xO p j)).
    rewrite IH. ring.
Qed.

Lemma digits_shift p j : 0 <= j -> digits (Z.to_pos (Zpos p * 2 ^ j)) = digits p + j.
Proof.
  intros Hj. pose proof (digits_bounds p) as [Dlo Dhi].
  assert (Hd : 0 < digits p) by (unfold digits; lia).
  assert (Hp : 0 < 2 ^ j) by (apply Z.pow_pos_nonneg; lia).
  apply digits_unique. rewrite Z2Pos.id by lia.
  replace (digits p + j - 1) with ((digits p - 1) + j) by lia.
  rewrite !Z.pow_add_r by lia. split.
  - apply Z.mul_le_mono_nonneg_r; lia.
  - apply Z.mul_lt_mono_pos_r; lia.
Qed.

(** A 53-digit mantissa with an exponent in range is already rounded. *)
Lemma binary_round_aux_canonical sx mz ez :
  digits mz = 53 -> -1074 <= ez <= 971 ->
  binary_round_aux 53 1024 sx (Zpos mz) ez loc_Exact = S754_finite sx mz ez.
Proof.
  intros Hd He. unfold digits in Hd.
  assert (Hshr : shr_fexp 53 1024 (Zpos mz) ez loc_Exact
                 = (Build_shr_record (Zpos mz) false false, ez)).
  { unfold shr_fexp, Zdigits2, shr_record_of_loc. rewrite Hd.
    unfold fexp, SpecFloat.emin.
    replace (Z.max (53 + ez - 53) (3 - 1024 - 53) - ez) with 0 by lia.
    reflexivity. }
  unfold binary_round_aux. rewrite Hshr. cbn [shr_m loc_of_shr_record round_nearest_even].
  rewrite Hshr. cbn [shr_m].
  replace (ez <=? 1024 - 53) with true by (symmetry; apply Z.leb_le; lia).
  reflexivity.
Qed.

(** Rounding a mantissa of at most 53 digits only normalises it. *)
Lemma binary_round_exact sx mx ex :
  digits mx <= 53 ->
  -1074 <= ex + digits mx - 53 <= 971 ->
  binary_round 53 1024 sx mx ex
  = S754_finite sx (Z.to_pos (Zpos mx * 2 ^ (53 - digits mx)))
      (ex + digits mx - 53).
Proof.
  intros Hd He. unfold binary_round, shl_align.
  fold (digits mx). unfold fexp, SpecFloat.emin.
  replace (Z.max (digits mx + ex - 53) (3 - 1024 - 53))
    with (ex + digits mx - 53) by lia.
  destruct (ex + digits mx - 53 - ex) as [|j|j] eqn:Hj; [| lia |].
  - replace (53 - digits mx) with 0 by lia.
    rewrite Z.pow_0_r, Z.mul_1_r, Pos2Z.id.
    replace (ex + digits mx - 53) with ex by lia.
    apply binary_round_aux_canonical; lia.
  - assert (Hjj : 53 - digits mx = Zpos j) by lia.
    rewrite Hjj, <- iter_xO_value, Pos2Z.id.
    apply binary_round_aux_canonical; [|lia].
    replace (Pos.iter xO mx j) with (Z.to_pos (Zpos mx * 2 ^ Zpos j))
      by (now rewrite <- iter_xO_value, Pos2Z.id).
    rewrite digits_shift by lia. lia.
Qed.
Lemma digits_le p k : 0 <= k -> Zpos p < 2 ^ k -> digits p <= k.
Proof.
  intros Hk Hp. pose proof (digits_bounds p) as [Dlo _].
  destruct (Z.le_gt_cases (digits p) k) as [|Hgt]; [assumption|].
  assert (2 ^ k <= 2 ^ (digits p - 1)) by (apply Z.pow_le_mono_r; lia). lia.
Qed.

Lemma digits_gt p k : 0 <= k -> 2 ^ k <= Zpos p -> k < digits p.
Proof.
  intros Hk Hp. pose proof (digits_bounds p) as [_ Dhi].
  destruct (Z.lt_ge_cases k (digits p)) as [|Hge]; [assumption|].
  assert (2 ^ digits p <= 2 ^ k) by (apply Z.pow_le_mono_r; unfold digits in *; lia).
  lia.
Qed.

Lemma digits_pos p : 0 < digits p.
Proof. unfold digits. lia. Qed.

(** Normalising a non-zero integer below [2^53], scaled by a power of two
    in range, is exact. *)
Lemma binary_normalize_exact z e :
  z <> 0 -> Z.abs z < 2 ^ 53 ->
  -1074 <= e + digits (Z.to_pos (Z.abs z)) - 53 <= 971 ->
  binary_normalize 53 1024 z e false
  = S754_finite (z <? 0)
      (Z.to_pos (Z.abs z * 2 ^ (53 - digits (Z.to_pos (Z.abs z)))))
      (e + digits (Z.to_pos (Z.abs z)) - 53).
Proof.
  intros Hz Hlt He. destruct z as [|p|p]; [congruence| |].
  - change (Z.abs (Zpos p)) with (Zpos p) in *.
    change (Z.to_pos (Zpos p)) with p in *.
    change (Zpos p <? 0) with false.
    cbn [binary_normalize]. apply binary_round_exact; [|assumption].
    apply digits_le; lia.
  - change (Z.abs (Zneg p)) with (Zpos p) in *.
    change (Z.to_pos (Zpos p)) with p in *.
    change (Zneg p <? 0) with true.
    cbn [binary_normalize]. apply binary_round_exact; [|assumption].
    apply digits_le; lia.
Qed.

(** Scaling the integer by [2^k] and the exponent by [-k] changes
    nothing. *)
Lemma binary_normalize_shift z k e :
  0 <= k -> Z.abs z * 2 ^ k < 2 ^ 53 ->
  (z <> 0 -> -1074 <= e + digits (Z.to_pos (Z.abs z)) - 53 <= 971) ->
  binary_normalize 53 1024 (z * 2 ^ k) (e - k) false
  = binary_normalize 53 1024 z e false.
Proof.
  intros Hk Hlt He. destruct (Z.eq_dec z 0) as [->|Hz]; [reflexivity|].
  specialize (He Hz).
  assert (Hp : 0 < 2 ^ k) by (apply Z.pow_pos_nonneg; lia).
  assert (Habs : Z.abs (z * 2 ^ k) = Z.abs z * 2 ^ k)
    by (rewrite Z.abs_mul, (Z.abs_eq (2 ^ k)); lia).
  assert (Hd : digits (Z.to_pos (Z.abs z * 2 ^ k))
               = digits (Z.to_pos (Z.abs z)) + k).
  { rewrite <- (digits_shift (Z.to_pos (Z.abs z)) k Hk).
    rewrite Z2Pos.id by lia. reflexivity. }
  assert (Hsmall : Z.abs z < 2 ^ 53) by nia.
  rewrite (binary_normalize_exact (z * 2 ^ k) (e - k)),
          (binary_normalize_exact z e); rewrite ?Habs, ?Hd; try lia.
  f_equal.
  - pose proof (Z.ltb_spec (z * 2 ^ k) 0) as H1.
    pose proof (Z.ltb_spec z 0) as H2.
    destruct H1, H2; try reflexivity; nia.
  - f_equal. rewrite <- Z.mul_assoc, <- Z.pow_add_r.
    + f_equal. f_equal. lia.
    + lia.
    + pose proof (digits_le (Z.to_pos (Z.abs z * 2 ^ k)) 53).
      rewrite Hd, Z2Pos.id in H by lia. lia.
  - lia.
Qed.
Lemma shl_align_value m e e' :
  e' <= e -> Zpos (fst (shl_align m e e')) = Zpos m * 2 ^ (e - e').
Proof.
  intros He. unfold shl_align.
  destruct (e' - e) as [|j|j] eqn:Hj; cbn [fst]; [| lia |].
  - replace (e - e') with 0 by lia. lia.
  - rewrite iter_xO_value. f_equal. f_equal. lia.
Qed.

Lemma SFsub_finite mx ex my ey :
  SFsub 53 1024 (S754_finite false mx ex) (S754_finite false my ey)
  = binary_normalize 53 1024
      (Zpos mx * 2 ^ (ex - Z.min ex ey) - Zpos my * 2 ^ (ey - Z.min ex ey))
      (Z.min ex ey) false.
Proof.
  cbn [SFsub cond_Zopp].
  rewrite !shl_align_value by lia. reflexivity.
Qed.

(** Integers below [2^53] divided by [2^30]: the quotient is more than
    [0.2] away from zero exactly when five times the integer exceeds
    [2^30]. *)
Lemma abs_truediv_gt z :
  Z.abs z < 2 ^ 53 ->
  PyFloat.gt (PyFloat.abs (PyFloat.truediv_pow2 z 30)) PyFloat.lit_0_2
  = (2 ^ 30 <? 5 * Z.abs z).
Proof.
  intros Hz. unfold PyFloat.gt, PyFloat.abs, PyFloat.truediv_pow2,
    PyFloat.prec, PyFloat.emax.
  change (Z.opp 30) with (-30).
  destruct (Z.eq_dec z 0) as [->|Hne]; [reflexivity|].
  set (t := Z.abs z) in *.
  assert (Ht : 0 < t) by (unfold t; lia).
  pose proof (digits_bounds (Z.to_pos t)) as [Dlo Dhi].
  pose proof (digits_pos (Z.to_pos t)) as Dpos.
  pose proof (digits_le (Z.to_pos t) 53 ltac:(lia)) as Dle.
  rewrite Z2Pos.id in Dlo, Dhi, Dle by lia. specialize (Dle Hz).
  rewrite binary_normalize_exact by (fold t; lia). fold t.
  set (dt := digits (Z.to_pos t)) in *.
  unfold PyFloat.lit_0_2, SFltb, SFabs, SFcompare.
  change (2 ^ 30) with 1073741824.
  destruct (Z.compare_spec (-55) (-30 + dt - 53)) as [Heq|Hlt|Hgt].
  - assert (Hdt : dt = 28) by lia. rewrite Hdt in *.
    change (2 ^ (53 - 28)) with 33554432.
    change (2 ^ (28 - 1)) with 134217728 in Dlo.
    rewrite Pos.compare_cont_spec. cbn [Pos.switch_Eq].
    rewrite Pos2Z.inj_compare, Z2Pos.id by lia.
    destruct (Z.compare_spec 7205759403792794 (t * 33554432));
      symmetry; [apply Z.ltb_ge | apply Z.ltb_lt | apply Z.ltb_ge]; lia.
  - symmetry. apply Z.ltb_lt.
    assert (2 ^ 28 <= 2 ^ (dt - 1)) by (apply Z.pow_le_mono_r; lia).
    change (2 ^ 28) with 268435456 in *. lia.
  - symmetry. apply Z.ltb_ge.
    assert (2 ^ dt <= 2 ^ 27) by (apply Z.pow_le_mono_r; lia).
    change (2 ^ 27) with 134217728 in *. lia.
Qed.

(** Around one GiB the subtraction of [1.0] is exact. *)
Lemma sub_one_exact s :
  2 ^ 29 <= s < 2 ^ 31 ->
  PyFloat.sub (PyFloat.truediv_pow2 s 30) PyFloat.one
  = PyFloat.truediv_pow2 (s - 2 ^ 30) 30.
Proof.
  change (2 ^ 29) with 536870912. change (2 ^ 31) with 2147483648.
  change (2 ^ 30) with 1073741824.
  intros Hs. unfold PyFloat.sub, PyFloat.truediv_pow2, PyFloat.one,
    PyFloat.prec, PyFloat.emax.
  change (Z.opp 30) with (-30).
  assert (Habs : Z.abs s = s) by lia.
  assert (Hd : digits (Z.to_pos s) = 30 \/ digits (Z.to_pos s) = 31).
  { destruct (Z.lt_ge_cases s 1073741824).
    - left. apply digits_unique. rewrite Z2Pos.id by lia.
      change (2 ^ (30 - 1)) with 536870912. change (2 ^ 30) with 1073741824. lia.
    - right. apply digits_unique. rewrite Z2Pos.id by lia.
      change (2 ^ (31 - 1)) with 1073741824. change (2 ^ 31) with 2147483648. lia. }
  rewrite (binary_normalize_exact s (-30));
    rewrite ?Habs; [| lia | change (2 ^ 53) with 9007199254740992; lia | lia].
  change (s <? 0) with (s <? 0). replace (s <? 0) with false
    by (symmetry; apply Z.ltb_ge; lia).
  rewrite SFsub_finite.
  assert (Hp : forall k, 0 <= k -> 0 < 2 ^ k) by (intros; apply Z.pow_pos_nonneg; lia).
  destruct Hd as [Hd|Hd]; rewrite Hd.
  - change (-30 + 30 - 53) with (-53). change (Z.min (-53) (-52)) with (-53).
    change (53 - 30) with 23. change (-53 - -53) with 0. change (-52 - -53) with 1.
    rewrite Z2Pos.id by (specialize (Hp 23); lia).
    rewrite <- (binary_normalize_shift (s - 1073741824) 23 (-30)).
    + f_equal. change (2 ^ 23) with 8388608. lia.
    + lia.
    + change (2 ^ 23) with 8388608. change (2 ^ 53) with 9007199254740992. lia.
    + intros Hne.
      pose proof (digits_pos (Z.to_pos (Z.abs (s - 1073741824)))).
      pose proof (digits_le (Z.to_pos (Z.abs (s - 1073741824))) 53 ltac:(lia)) as Hle.
      rewrite Z2Pos.id in Hle by lia.
      change (2 ^ 53) with 9007199254740992 in Hle. lia.
  - change (-30 + 31 - 53) with (-52). change (Z.min (-52) (-52)) with (-52).
    change (53 - 31) with 22. change (-52 - -52) with 0.
    rewrite Z2Pos.id by (specialize (Hp 22); lia).
    rewrite <- (binary_normalize_shift (s - 1073741824) 22 (-30)).
    + f_equal. change (2 ^ 22) with 4194304. lia.
    + lia.
    + change (2 ^ 22) with 4194304. change (2 ^ 53) with 9007199254740992. lia.
    + intros Hne.
      pose proof (digits_pos (Z.to_pos (Z.abs (s - 1073741824)))).
      pose proof (digits_le (Z.to_pos (Z.abs (s - 1073741824))) 53 ltac:(lia)) as Hle.
      rewrite Z2Pos.id in Hle by lia.
      change (2 ^ 53) with 9007199254740992 in Hle. lia.
Qed.

(** The verifier's test against a declared size of [1.0], for files
    between half a GiB and two GiB. *)
Lemma size_mismatch_one_gib s :
  2 ^ 29 <= s < 2 ^ 31 ->
  size_mismatch s (Some PyFloat.one) = (2 ^ 30 <? 5 * Z.abs (s - 2 ^ 30)).
Proof.
  intros Hs. unfold size_mismatch. cbn [PyFloat.truthy PyFloat.one andb].
  change (S754_finite false 4503599627370496 (-52)) with PyFloat.one.
  rewrite (sub_one_exact s Hs). apply abs_truediv_gt.
  revert Hs. change (2 ^ 29) with 536870912. change (2 ^ 31) with 2147483648.
  change (2 ^ 30) with 1073741824. change (2 ^ 53) with 9007199254740992. lia.
Qed.
Lemma iter_pos_preserves {A} (P : A -> Prop) (f : A -> A) n x :
  (forall y, P y -> P (f y)) -> P x -> P (SpecFloat.iter_pos f n x).
Proof.
  intros Hf. revert x. induction n as [n IH|n IH|]; intros x Hx; cbn [SpecFloat.iter_pos].
  - apply IH, IH, Hf, Hx.
  - apply IH, IH, Hx.
  - apply Hf, Hx.
Qed.

Lemma shr_1_nonneg mrs : 0 <= shr_m mrs -> 0 <= shr_m (shr_1 mrs).
Proof.
  destruct mrs as [m r s]. destruct m as [|[p|p|]|[p|p|]]; cbn; lia.
Qed.

Lemma shr_fexp_nonneg m e l :
  0 <= m -> 0 <= shr_m (fst (shr_fexp 53 1024 m e l)).
Proof.
  intros Hm. unfold shr_fexp, shr.
  assert (H0 : 0 <= shr_m (shr_record_of_loc m l)) by (now destruct l as [|[]]).
  destruct (fexp 53 1024 (Zdigits2 m + e) - e) as [|n|n]; cbn [fst]; try exact H0.
  apply iter_pos_preserves; [apply shr_1_nonneg | exact H0].
Qed.

Lemma round_nearest_even_nonneg m l : 0 <= m -> 0 <= round_nearest_even m l.
Proof.
  intros Hm. destruct l as [|[]]; cbn [round_nearest_even]; try lia.
  destruct (Z.even m); lia.
Qed.

Lemma binary_round_aux_not_nan sx mx ex lx :
  0 <= mx -> is_nan (binary_round_aux 53 1024 sx mx ex lx) = false.
Proof.
  intros Hm. unfold binary_round_aux.
  pose proof (shr_fexp_nonneg mx ex lx Hm) as H1.
  destruct (shr_fexp 53 1024 mx ex lx) as [mrs' e']. cbn [fst] in H1.
  pose proof (shr_fexp_nonneg _ e' loc_Exact
                (round_nearest_even_nonneg (shr_m mrs')
                   (loc_of_shr_record mrs') H1)) as H2.
  destruct (shr_fexp 53 1024 _ e' loc_Exact) as [mrs'' e'']. cbn [fst] in H2.
  destruct (shr_m mrs'') as [|p|p]; [reflexivity | | lia].
  now destruct (e'' <=? 1024 - 53).
Qed.

Lemma binary_normalize_not_nan m e sz :
  is_nan (binary_normalize 53 1024 m e sz) = false.
Proof.
  destruct m as [|p|p]; cbn [binary_normalize]; [reflexivity| |];
    unfold binary_round; destruct (shl_align _ _ _) as [mz ez];
    now apply binary_round_aux_not_nan.
Qed.

Lemma sub_not_nan x e :
  is_nan x = false -> PyFloat.is_finite e = true ->
  is_nan (PyFloat.sub x e) = false.
Proof.
  unfold PyFloat.sub.
  destruct x as [sx|sx| |sx mx ex], e as [se|se| |se me ee];
    try discriminate; intros _ _; cbn [SFsub]; try reflexivity.
  - now destruct sx, se.
  - apply binary_normalize_not_nan.
Qed.

Lemma SFcompare_swap x y :
  SFcompare y x = match SFcompare x y with
                  | Some c => Some (CompOpp c)
                  | None => None
                  end.
Proof.
  destruct x as [sx|sx| |sx mx ex], y as [sy|sy| |sy my ey];
    cbn [SFcompare]; try reflexivity;
    try (now destruct sx); try (now destruct sy);
    try (now destruct sx, sy).
  destruct sx, sy; try reflexivity.
  - rewrite (Z.compare_antisym ex ey).
    destruct (ex ?= ey); cbn [CompOpp]; try reflexivity.
    rewrite (Pos.compare_cont_antisym mx my Eq). cbn [CompOpp].
    now destruct (Pos.compare_cont Eq mx my).
  - rewrite (Z.compare_antisym ex ey).
    destruct (ex ?= ey); cbn [CompOpp]; try reflexivity.
    now rewrite (Pos.compare_cont_antisym mx my Eq).
Qed.

(** Away from NaN, "not greater" is "less or equal". *)
Lemma not_gt_le x y :
  is_nan x = false -> is_nan y = false ->
  PyFloat.gt x y = false <-> PyFloat.le x y = true.
Proof.
  intros Hx Hy. unfold PyFloat.gt, PyFloat.le, SFltb, SFleb.
  rewrite (SFcompare_swap x y).
  destruct (SFcompare x y) as [[]|] eqn:Hc; cbn [CompOpp]; try easy.
  exfalso. destruct x, y; try discriminate; cbn in Hc; discriminate.
Qed.

End FloatFacts.

(** ** The fetcher *)

Section FetcherFacts.
Variable net : network.

Lemma try_download_requests url p w :
  w_requests (snd (try_download net url p w)) = S (w_requests w).
Proof.
  unfold try_download.
  destruct (net (w_requests w) url); cbn; try reflexivity.
  rewrite lookup_insert_eq. now destruct (0 <? _).
Qed.

Lemma try_download_frame url p w k :
  k <> OS.realpath p ->
  w_files (snd (try_download net url p w)) !! k = w_files w !! k.
Proof.
  intros Hk. unfold try_download.
  destruct (net (w_requests w) url); cbn; try reflexivity.
  - now rewrite lookup_insert_ne by congruence.
  - rewrite lookup_insert_eq.
    destruct (0 <? _); cbn; now rewrite lookup_insert_ne by congruence.
Qed.

Lemma try_download_fetched url p w w' :
  try_download net url p w = (Fetched, w') ->
  exists f, net (w_requests w) url = Complete f /\ 0 < st_size f
            /\ w_files w' = <[OS.realpath p := f]> (w_files w).
Proof.
  unfold try_download.
  destruct (net (w_requests w) url) as [| ? | f]; cbn; try discriminate.
  rewrite lookup_insert_eq.
  destruct (0 <? st_size f) eqn:Hs; [|discriminate].
  intros H; injection H as <-. exists f. cbn.
  repeat split. now apply Z.ltb_lt.
Qed.


Lemma try_download_raised url p w :
  transport_failure (net (w_requests w) url) = true ->
  fst (try_download net url p w) = Raised.
Proof.
  unfold try_download.
  now destruct (net (w_requests w) url) as [| ? | f].
Qed.

(** The fetcher only ever touches its destination. *)
Lemma download_loop_frame url p m atts w k :
  k <> OS.realpath p ->
  w_files (snd (download_loop net url p m atts w)) !! k = w_files w !! k.
Proof.
  intros Hk. revert w. induction atts as [|a rest IH]; intros w; [reflexivity|].
  cbn [download_loop].
  pose proof (try_download_frame url p w k Hk) as Ht.
  destruct (try_download net url p w) as [[| |] w1]; cbn [snd] in *.
  - exact Ht.
  - rewrite IH. now destruct (a <? m - 1)%nat.
  - assert (H2 : w_files (if exists_file p (print (EvAttemptFailed (a + 1)) w1)
               then set_files (delete (OS.realpath p) (w_files (print (EvAttemptFailed (a + 1)) w1)))
                      (print (EvAttemptFailed (a + 1)) w1)
               else print (EvAttemptFailed (a + 1)) w1) !! k = w_files w !! k).
    { destruct (exists_file _ _); cbn; [rewrite lookup_delete_ne by congruence|]; exact Ht. }
    cbv zeta. destruct (a <? m - 1)%nat; [rewrite IH|]; exact H2.
Qed.

Lemma download_loop_requests url p m atts w :
  (w_requests w <= w_requests (snd (download_loop net url p m atts w)))%nat.
Proof.
  revert w. induction atts as [|a rest IH]; intros w; [reflexivity|].
  cbn [download_loop].
  pose proof (try_download_requests url p w) as Ht.
  destruct (try_download net url p w) as [[| |] w1]; cbn [snd] in *.
  - lia.
  - etransitivity; [|apply IH]. destruct (a <? m - 1)%nat; cbn; lia.
  - cbv zeta. destruct (a <? m - 1)%nat.
    + etransitivity; [|apply IH]. cbn. destruct (exists_file _ _); cbn; lia.
    + cbn. destruct (exists_file _ _); cbn; lia.
Qed.

(** A download that succeeds leaves a non-empty payload of the network
    at the destination. *)
Lemma download_loop_success url p m atts w w' :
  download_loop net url p m atts w = (true, w') ->
  exists f t, net t url = Complete f /\ 0 < st_size f
              /\ w_files w' = <[OS.realpath p := f]> (w_files w).
Proof.
  revert w. induction atts as [|a rest IH]; intros w; [discriminate|].
  cbn [download_loop].
  pose proof (try_download_frame url p w) as Hfr.
  destruct (try_download net url p w) as [[| |] w1] eqn:Ht; cbn [snd] in *.
  - intros H; injection H as <-.
    apply try_download_fetched in Ht as (f & Hn & Hs & Hf). eauto.
  - intros H. apply IH in H as (f & t & Hn & Hs & Hf).
    exists f, t. repeat split; try assumption.
    rewrite Hf. apply map_eq; intros k.
    destruct (decide (k = OS.realpath p)) as [->|Hk].
    + now rewrite !lookup_insert_eq.
    + rewrite !lookup_insert_ne by congruence.
      destruct (a <? m - 1)%nat; cbn; now apply Hfr.
  - cbv zeta. destruct (a <? m - 1)%nat; [|discriminate].
    intros H. apply IH in H as (f & t & Hn & Hs & Hf).
    exists f, t. repeat split; try assumption.
    rewrite Hf. apply map_eq; intros k.
    destruct (decide (k = OS.realpath p)) as [->|Hk].
    + now rewrite !lookup_insert_eq.
    + rewrite !lookup_insert_ne by congruence. cbn.
      destruct (exists_file _ _); cbn;
        [rewrite lookup_delete_ne by congruence|]; now apply Hfr.
Qed.



(** Transport failures: exactly [max_retries] requests, the answer
    [False], and nothing left at the destination. *)
Lemma download_loop_transport url p m a k w :
  (forall t, transport_failure (net t url) = true) ->
  (a + S k = m)%nat ->
  let r := download_loop net url p m (seq a (S k)) w in
  fst r = false
  /\ w_requests (snd r) = (w_requests w + S k)%nat
  /\ w_files (snd r) !! OS.realpath p = None.
Proof.
  intros Hnet. revert a w. induction k as [|k IH]; intros a w Ha.
  - cbn [seq download_loop].
    pose proof (try_download_raised url p w (Hnet _)) as Ht.
    pose proof (try_download_requests url p w) as Hr.
    destruct (try_download net url p w) as [r1 w1]; cbn [fst snd] in *.
    subst r1. cbv zeta.
    replace (a <? m - 1)%nat with false by (symmetry; apply Nat.ltb_ge; lia).
    cbn. repeat split.
    + destruct (exists_file _ _); cbn; lia.
    + destruct (exists_file p _) eqn:He; cbn.
      * apply lookup_delete_eq.
      * unfold exists_file in He. cbn in He.
        apply bool_decide_eq_false in He.
        now apply eq_None_not_Some.
  - change (seq a (S (S k))) with (a :: seq (S a) (S k)).
    cbn [download_loop].
    pose proof (try_download_raised url p w (Hnet _)) as Ht.
    pose proof (try_download_requests url p w) as Hr.
    destruct (try_download net url p w) as [r1 w1]; cbn [fst snd] in *.
    subst r1. cbv zeta.
    replace (a <? m - 1)%nat with true by (symmetry; apply Nat.ltb_lt; lia).
    specialize (IH (S a) (print (EvSleep 5) (print EvRetrying
       (if exists_file p (print (EvAttemptFailed (a + 1)) w1)
        then set_files (delete (OS.realpath p) (w_files (print (EvAttemptFailed (a + 1)) w1)))
               (print (EvAttemptFailed (a + 1)) w1)
        else print (EvAttemptFailed (a + 1)) w1))) ltac:(lia)).
    cbv zeta in IH. destruct IH as (H1 & H2 & H3).
    repeat split; try assumption.
    rewrite H2. cbn. destruct (exists_file _ _); cbn; lia.
Qed.
(** Empty bodies: every attempt is made, the answer is [False], and the
    empty file stays at the destination. *)
Lemma download_loop_empty_body url p m atts w f :
  (forall t, net t url = Complete f) -> st_size f <= 0 ->
  let r := download_loop net url p m atts w in
  fst r = false
  /\ w_requests (snd r) = (w_requests w + length atts)%nat
  /\ (atts <> [] -> w_files (snd r) !! OS.realpath p = Some f).
Proof.
  intros Hnet Hs. revert w. induction atts as [|a rest IH]; intros w.
  - cbn. repeat split; [lia | congruence].
  - cbn [download_loop]. unfold try_download. rewrite Hnet.
    cbn [write_file set_files w_files w_requests w_log].
    rewrite lookup_insert_eq.
    replace (0 <? st_size f) with false by (symmetry; apply Z.ltb_ge; lia).
    match goal with
    | |- context [download_loop net url p m rest ?w1] =>
        specialize (IH w1); cbv zeta in IH; destruct IH as (H1 & H2 & H3);
        assert (Hw1 : w_requests w1 = S (w_requests w)
                      /\ w_files w1 !! OS.realpath p = Some f)
    end.
    { destruct (a <? m - 1)%nat; cbn; now rewrite lookup_insert_eq. }
    destruct Hw1 as [Hr Hf]. cbv zeta. repeat split.
    + exact H1.
    + rewrite H2, Hr. cbn [length]. lia.
    + intros _. destruct rest as [|b rest']; [exact Hf|].
      apply H3. discriminate.
Qed.

End FetcherFacts.

(** ** The verifier and the extractor *)

Lemma verify_file_spec p e w :
  fst (verify_file p e w) = valid_file (w_files w) p e
  /\ w_files (snd (verify_file p e w)) = w_files w
  /\ w_requests (snd (verify_file p e w)) = w_requests w.
Proof.
  unfold verify_file, valid_file.
  destruct (w_files w !! OS.realpath p) as [f|]; [|easy].
  now destruct (size_mismatch _ _).
Qed.

Lemma verify_file_eq p e w b w' :
  verify_file p e w = (b, w') ->
  b = valid_file (w_files w) p e /\ w_files w' = w_files w
  /\ w_requests w' = w_requests w.
Proof.
  intros H. pose proof (verify_file_spec p e w) as Hs.
  rewrite H in Hs. exact Hs.
Qed.

Lemma extractall_requests tg d ms w :
  w_requests (extractall tg d ms w) = w_requests w.
Proof.
  unfold extractall. revert w.
  induction ms as [|m ms IH]; intros w; [reflexivity|].
  cbn [fold_left]. now rewrite IH.
Qed.



Lemma check_members_files ns w :
  w_files (check_members ns w) = w_files w
  /\ w_requests (check_members ns w) = w_requests w.
Proof.
  unfold check_members. revert w.
  induction ns as [|n ns IH]; intros w; [easy|].
  cbn [fold_left]. destruct (IH (if suspicious n then print (EvSuspicious n) w else w)) as [-> ->].
  now destruct (suspicious n).
Qed.

(** On a path whose suffix is [".tmp"] the extractor either reads a tar
    archive (when the name contains [".tar."]) or gives up. *)
Lemma extract_archive_tmp p d w :
  suffix p = ".tmp"%string ->
  extract_archive p d w =
    if Str.contains ".tar." (name p)
    then match tar_open p (print (EvExtracting (name p)) w) with
         | Some ms =>
             (true, print (EvExtracted (name p))
                      (extractall OS.join_resolve d ms
                         (check_members (map fst ms)
                            (print (EvExtracting (name p)) w))))
         | None => (false, print (EvExtractError p)
                             (print (EvExtracting (name p)) w))
         end
    else (false, print (EvUnknownFormat p) (print (EvExtracting (name p)) w)).
Proof.
  intros Hs. unfold extract_archive. rewrite Hs.
  change (String.eqb ".tmp" ".tar") with false.
  change (String.eqb ".tmp" ".zip") with false.
  change (String.eqb ".tmp" ".gz") with false.
  cbn [orb]. reflexivity.
Qed.



Lemma extract_archive_tmp_requests p d w :
  suffix p = ".tmp"%string ->
  w_requests (snd (extract_archive p d w)) = w_requests w.
Proof.
  intros Hs. rewrite (extract_archive_tmp p d w Hs).
  destruct (Str.contains _ _); [|reflexivity].
  destruct (tar_open _ _); [|reflexivity].
  cbn. rewrite extractall_requests.
  now rewrite (proj2 (check_members_files _ _)).
Qed.

(** ** The category runner and the batch orchestrator *)

Lemma valid_file_Some fs p e :
  valid_file fs p e = true ->
  exists f, fs !! OS.realpath p = Some f /\ size_mismatch (st_size f) e = false.
Proof.
  unfold valid_file. destruct (fs !! OS.realpath p) as [f|]; [|discriminate].
  intros H%negb_true_iff. eauto.
Qed.

Lemma verify_file_valid p e w :
  valid_file (w_files w) p e = true -> verify_file p e w = (true, w).
Proof.
  unfold valid_file, verify_file.
  destruct (w_files w !! OS.realpath p) as [f|]; [|discriminate].
  now destruct (size_mismatch _ _).
Qed.


Lemma rename_lookup src dst w w' f :
  w_files w !! OS.realpath src = Some f ->
  rename src dst w = Some w' ->
  w_files w' !! OS.realpath dst = Some f.
Proof.
  unfold rename. intros ->. intros [= <-]. cbn. apply lookup_insert_eq.
Qed.

Lemma In_log_print e e' w : In e (w_log w) -> In e (w_log (print e' w)).
Proof. intros H. cbn. apply in_or_app. now left. Qed.

Lemma In_log_print_eq e w : In e (w_log (print e w)).
Proof. cbn. apply in_or_app. right. now left. Qed.


Lemma extractall_log tg d ms w : w_log (extractall tg d ms w) = w_log w.
Proof.
  unfold extractall. revert w.
  induction ms as [|m ms IH]; intros w; [reflexivity|].
  cbn [fold_left]. now rewrite IH.
Qed.

Lemma check_members_log ns w e :
  In e (w_log w) -> In e (w_log (check_members ns w)).
Proof.
  unfold check_members. revert w.
  induction ns as [|n ns IH]; intros w H; [exact H|].
  cbn [fold_left]. apply IH. destruct (suspicious n); [now apply In_log_print | exact H].
Qed.

(** Whatever the extractor does, it first announces the file it was
    given. *)
Lemma extract_archive_announces p d w :
  In (EvExtracting (name p)) (w_log (snd (extract_archive p d w))).
Proof.
  pose proof (In_log_print_eq (EvExtracting (name p)) w) as H0.
  unfold extract_archive.
  destruct (_ || _).
  - destruct (tar_open _ _); cbn [snd]; apply In_log_print; [|exact H0].
    rewrite extractall_log. now apply check_members_log.
  - destruct (String.eqb _ ".zip").
    + destruct (zip_open _ _); cbn [snd]; apply In_log_print; [|exact H0].
      rewrite extractall_log. now apply check_members_log.
    + destruct (String.eqb _ ".gz"); [|cbn [snd]; now apply In_log_print].
      destruct (w_files _ !! _) as [f|]; [|cbn [snd]; now apply In_log_print].
      destruct (content f); cbn [snd]; apply In_log_print; exact H0.
Qed.


Section RunnerFacts.
Variable net : network.

Lemma verify_file_true p e w w' :
  verify_file p e w = (true, w') -> w' = w.
Proof.
  unfold verify_file. destruct (w_files w !! OS.realpath p); [|discriminate].
  destruct (size_mismatch _ _); [discriminate|]. now intros [= <-].
Qed.

(** The branches of the loop body, read off its result. *)
Lemma process_file_anatomy model_dir filename info fl w o fl' w' :
  process_file net model_dir filename info fl w = Some (o, fl', w') ->
  let filepath := joinpath model_dir filename in
  let e := size_gb info in
  (o = AlreadyValid /\ valid_file (w_files w) filepath e = true /\ fl' = fl
   /\ w' = print (EvAlreadyExists filename) w)
  \/ (valid_file (w_files w) filepath e = false
      /\ exists temp wd b,
        with_suffix filepath (suffix filepath +:+ ".tmp") = Some temp
        /\ download_file net (url info) temp 3
             (print (EvDownloading filename) (snd (verify_file filepath e w)))
           = (b, wd)
        /\ ((b = false /\ o = DownloadFailed
             /\ fl' = fail_entry (required info) fl
             /\ w' = print (EvFailedDownload filename) wd)
            \/ (b = true /\ valid_file (w_files wd) temp e = false
                /\ o = VerifyFailed /\ fl' = fail_entry (required info) fl
                /\ w' = print (EvVerificationFailed filename)
                          (snd (verify_file temp e wd)))
            \/ (b = true /\ valid_file (w_files wd) temp e = true
                /\ extract info = false /\ o = Promoted /\ fl' = fl
                /\ exists wr, rename temp filepath wd = Some wr
                              /\ w' = print (EvDownloaded filename) wr)
            \/ (b = true /\ valid_file (w_files wd) temp e = true
                /\ extract info = true
                /\ fst (extract_archive temp model_dir wd) = true
                /\ o = ExtractedOk /\ fl' = fl
                /\ unlink temp (snd (extract_archive temp model_dir wd))
                   = Some w')
            \/ (b = true /\ valid_file (w_files wd) temp e = true
                /\ extract info = true
                /\ fst (extract_archive temp model_dir wd) = false
                /\ o = ExtractFailed /\ fl' = fail_entry (required info) fl
                /\ w' = print (EvFailedExtract filename)
                          (snd (extract_archive temp model_dir wd))))).
Proof.
  intros H. cbv zeta. unfold process_file in H.
  set (filepath := joinpath model_dir filename) in *.
  set (e := size_gb info) in *.
  destruct (verify_file filepath e w) as [v wv] eqn:Hv.
  pose proof (verify_file_eq _ _ _ _ _ Hv) as (Hv1 & Hv2 & Hv3).
  destruct v.
  - left. injection H as <- <- <-.
    apply verify_file_true in Hv as ->. easy.
  - right. split; [easy|]. cbn [snd].
    destruct (with_suffix filepath _) as [temp|]; [|discriminate].
    destruct (download_file net (url info) temp 3 _) as [b wd] eqn:Hd.
    exists temp, wd, b. split; [reflexivity|]. split; [exact Hd|].
    destruct b.
    + destruct (verify_file temp e wd) as [v2 w2] eqn:Hv'.
      pose proof (verify_file_eq _ _ _ _ _ Hv') as (Hw1 & Hw2 & Hw3).
      destruct v2.
      * apply verify_file_true in Hv' as ->.
        destruct (extract info).
        -- destruct (extract_archive temp model_dir wd) as [x wx] eqn:Hx.
           destruct x.
           ++ destruct (unlink temp wx) as [wu|] eqn:Hu; [|discriminate].
              injection H as <- <- <-.
              right; right; right; left. easy.
           ++ injection H as <- <- <-.
              right; right; right; right. easy.
        -- destruct (rename temp filepath wd) as [wr|] eqn:Hr; [|discriminate].
           injection H as <- <- <-.
           right; right; left. repeat split; try easy. eauto.
      * injection H as <- <- <-. right; left. easy.
    + injection H as <- <- <-. left. easy.
Qed.
End RunnerFacts.

Section LoopFacts.
Variable net : network.

Lemma process_file_flags model_dir filename info fl w o fl' w' :
  process_file net model_dir filename info fl w = Some (o, fl', w') ->
  fl' = if failed o then fail_entry (required info) fl else fl.
Proof.
  intros H. apply process_file_anatomy in H.
  destruct H as [(-> & _ & -> & _) | (_ & temp & wd & b & _ & _ & H)];
    [reflexivity|].
  destruct H as [(_ & -> & -> & _) | [(_ & _ & -> & -> & _) |
    [(_ & _ & _ & -> & -> & _) | [(_ & _ & _ & _ & -> & -> & _) |
    (_ & _ & _ & _ & -> & -> & _)]]]]; reflexivity.
Qed.

(** The loop gives every entry an outcome, in order, and lowers
    [required_success] exactly at the required entries that failed. *)
Lemma process_files_report model_dir entries fl w os fl' w' :
  process_files net model_dir entries fl w = Some (os, fl', w') ->
  map fst os = map fst entries
  /\ (required_success fl' = false <->
      required_success fl = false
      \/ exists i filename info o,
           entries !! i = Some (filename, info)
           /\ os !! i = Some (filename, o)
           /\ required info = true /\ failed o = true).
Proof.
  revert fl w os fl' w'.
  induction entries as [|[filename info] rest IH]; intros fl w os fl' w' H.
  - injection H as <- <- <-. split; [reflexivity|].
    split; [now left|]. intros [H|(i & ? & ? & ? & H & _)]; [exact H|].
    now rewrite lookup_nil in H.
  - cbn [process_files] in H.
    destruct (process_file net model_dir filename info fl w)
      as [[[o fl1] w1]|] eqn:Hp; [|discriminate].
    destruct (process_files net model_dir rest fl1 w1)
      as [[[os1 fl2] w2]|] eqn:Hps; [|discriminate].
    injection H as <- <- <-.
    apply IH in Hps as [Hnames Hflag].
    apply process_file_flags in Hp.
    split; [cbn; now rewrite Hnames|].
    rewrite Hflag. subst fl1. split.
    + intros [H|(i & n & inf & o' & H1 & H2 & H3 & H4)].
      * destruct (failed o) eqn:Ho; [|now left].
        unfold fail_entry in H. cbn in H.
        destruct (required info) eqn:Hr; [|now left].
        right. exists 0%nat, filename, info, o. easy.
      * right. exists (S i), n, inf, o'. easy.
    + intros [H|(i & n & inf & o' & H1 & H2 & H3 & H4)].
      * left. destruct (failed o); [|exact H].
        unfold fail_entry; cbn. now destruct (required info).
      * destruct i as [|i].
        -- cbn in H1, H2. injection H1 as <- <-. injection H2 as <-.
           left. rewrite H4. unfold fail_entry; cbn. now rewrite H3.
        -- right. exists i, n, inf, o'. easy.
Qed.
End LoopFacts.

Section BatchFacts.
Variable net : network.
Variable statvfs : gmap path file -> option (Z * Z).
Variable models : catalog.

Lemma run_categories_verdict categories b w rs b' w' :
  run_categories net statvfs models categories b w = Some (rs, b', w') ->
  map fst rs = categories
  /\ (b' = true <->
      b = true /\ forall c r, In (c, r) rs -> returned r = true)
  /\ (forall i c r, rs !! i = Some (c, r) ->
      exists w1 w2,
        download_model_category net statvfs models c w1 = Some (r, w2)).
Proof.
  revert b w rs b' w'.
  induction categories as [|c rest IH]; intros b w rs b' w' H.
  - injection H as <- <- <-. split; [reflexivity|]. split.
    + split; [intros ->; split; [reflexivity | intros ? ? []] | now intros [-> _]].
    + intros i ? ? Hi. now rewrite lookup_nil in Hi.
  - cbn [run_categories] in H.
    destruct (download_model_category net statvfs models c w)
      as [[r w1]|] eqn:Hc; [|discriminate].
    destruct (run_categories net statvfs models rest _ w1)
      as [[[rs1 b1] w2]|] eqn:Hr; [|discriminate].
    injection H as <- <- <-.
    apply IH in Hr as (Hn & Hb & Hall).
    split; [cbn; now rewrite Hn|]. split.
    + rewrite Hb. split.
      * intros [H1 H2]. destruct (returned r) eqn:Hret; cbn in H1; [|discriminate].
        split; [exact H1|]. intros c' r' [[= <- <-]|Hin]; [exact Hret | eauto].
      * intros [-> H2]. rewrite (H2 c r) by now left. cbn.
        split; [reflexivity|]. intros c' r' Hin. apply (H2 c' r'). now right.
    + intros [|i] c' r' Hi.
      * cbn in Hi. injection Hi as <- <-. eauto.
      * cbn in Hi. eauto.
Qed.
End BatchFacts.

Section IsolationFacts.
Variable net : network.




End IsolationFacts.

Lemma valid_file_ext fs1 fs2 p e :
  fs1 !! OS.realpath p = fs2 !! OS.realpath p ->
  valid_file fs1 p e = valid_file fs2 p e.
Proof. unfold valid_file. now intros ->. Qed.

Section ResumeFacts.
Variable net : network.

(** An entry that was skipped or promoted leaves a valid file at its
    final path and touches nothing but its own two paths. *)
Lemma process_file_done model_dir filename info fl w o fl' w' :
  clean_dir model_dir = true -> simple_name filename = true ->
  process_file net model_dir filename info fl w = Some (o, fl', w') ->
  o = AlreadyValid \/ o = Promoted ->
  valid_file (w_files w') (joinpath model_dir filename) (size_gb info) = true
  /\ forall k : path,
      k <> (model_dir ++ [filename])%list ->
      k <> (model_dir ++ [filename +:+ ".tmp"])%list ->
      w_files w' !! k = w_files w !! k.
Proof.
  intros Hd Hn H Ho. apply process_file_anatomy in H.
  destruct H as [(_ & Hv & _ & ->) | (_ & temp & wd & b & Htemp & Hdl & H)];
    [now split|].
  destruct H as [(_ & -> & _) | [(_ & _ & -> & _) | [H |
    [(_ & _ & _ & _ & -> & _) | (_ & _ & _ & _ & -> & _)]]]];
    try (destruct Ho; discriminate).
  destruct H as (-> & Hv & _ & _ & _ & wr & Hr & ->).
  pose proof (temp_path_simple model_dir filename Hn) as Ht.
  unfold temp_path_of in Ht. rewrite Htemp in Ht. injection Ht as ->.
  apply valid_file_Some in Hv as (f & Hf & Hm).
  unfold rename in Hr. rewrite Hf in Hr. injection Hr as <-.
  cbn [print set_files w_files]. split.
  - unfold valid_file. now rewrite lookup_insert_eq, Hm.
  - intros k Hk1 Hk2.
    rewrite (realpath_final model_dir filename Hd Hn).
    rewrite (realpath_temp model_dir filename Hd Hn).
    rewrite lookup_insert_ne, lookup_delete_ne by congruence.
    pose proof (download_loop_frame net (url info)
                  (model_dir ++ [filename +:+ ".tmp"])%list 3 (seq 0 3)
                  (print (EvDownloading filename)
                     (snd (verify_file (joinpath model_dir filename)
                             (size_gb info) w))) k) as Hfr.
    unfold download_file in Hdl. rewrite Hdl in Hfr. cbn [snd] in Hfr.
    rewrite Hfr by (rewrite (realpath_temp model_dir filename Hd Hn); congruence).
    cbn [print w_files].
    now rewrite (proj1 (proj2 (verify_file_spec _ _ _))).
Qed.

(** After a run in which every entry was skipped or promoted, every
    entry has a valid file at its final path. *)
Lemma process_files_done model_dir entries fl w os fl' w' :
  clean_dir model_dir = true ->
  (forall n, In n (map fst entries) -> simple_name n = true) ->
  NoDup (map fst entries) ->
  (forall n m, In n (map fst entries) -> In m (map fst entries) ->
               n <> m +:+ ".tmp") ->
  process_files net model_dir entries fl w = Some (os, fl', w') ->
  (forall n o, In (n, o) os -> o = AlreadyValid \/ o = Promoted) ->
  (forall n i, In (n, i) entries ->
     valid_file (w_files w') (joinpath model_dir n) (size_gb i) = true)
  /\ forall k : path,
      (forall n, In n (map fst entries) ->
         k <> (model_dir ++ [n])%list
         /\ k <> (model_dir ++ [n +:+ ".tmp"])%list) ->
      w_files w' !! k = w_files w !! k.
Proof.
  intros Hd. revert fl w os fl' w'.
  induction entries as [|[n i] rest IH]; intros fl w os fl' w' Hs Hnd Hti H Hos.
  - injection H as <- <- <-. split; [intros ? ? []|reflexivity].
  - cbn [process_files] in H.
    destruct (process_file net model_dir n i fl w)
      as [[[o fl1] w1]|] eqn:Hp; [|discriminate].
    destruct (process_files net model_dir rest fl1 w1)
      as [[[os1 fl2] w2]|] eqn:Hps; [|discriminate].
    injection H as <- <- <-.
    cbn [map fst] in Hs, Hnd, Hti. apply NoDup_cons in Hnd as [Hnotin Hnd].
    destruct (process_file_done model_dir n i fl w o fl1 w1 Hd
                (Hs n (or_introl eq_refl)) Hp) as [Hval Hfr].
    { apply (Hos n o). now left. }
    destruct (IH fl1 w1 os1 fl2 w2) as [Hvals Hfrs]; try assumption.
    { intros m Hm. apply Hs. now right. }
    { intros a b Ha Hb. apply Hti; now right. }
    { intros m o' Hin. apply (Hos m o'). now right. }
    split.
    + intros m j [[= <- <-]|Hin]; [|now apply Hvals].
      rewrite <- Hval. apply valid_file_ext.
      rewrite (realpath_final model_dir n Hd (Hs n (or_introl eq_refl))).
      apply Hfrs. intros m Hm. split.
      * intros E. apply app_inv_head in E. injection E as <-.
        apply Hnotin. now apply list_elem_of_In.
      * intros E. apply app_inv_head in E. injection E as E.
        apply (Hti n m); [now left | now right | exact E].
    + intros k Hk. rewrite Hfrs.
      * apply Hfr; apply (Hk n); now left.
      * intros m Hm. apply Hk. now right.
Qed.

(** When every entry already has a valid file, the loop skips them all:
    no request, no change to the files. *)
Lemma process_files_all_valid model_dir entries fl w :
  (forall n i, In (n, i) entries ->
     valid_file (w_files w) (joinpath model_dir n) (size_gb i) = true) ->
  exists w',
    process_files net model_dir entries fl w
    = Some (map (fun e => (fst e, AlreadyValid)) entries, fl, w')
    /\ w_files w' = w_files w /\ w_requests w' = w_requests w.
Proof.
  revert w. induction entries as [|[n i] rest IH]; intros w H.
  - exists w. easy.
  - cbn [process_files]. unfold process_file.
    rewrite (verify_file_valid _ _ _ (H n i (or_introl eq_refl))).
    destruct (IH (print (EvAlreadyExists n) w)) as (w' & -> & Hf & Hr).
    { intros m j Hin. cbn. apply H. now right. }
    exists w'. easy.
Qed.
End ResumeFacts.
(** ** Further facts *)

(** *** The fetcher, attempt by attempt *)

Section FetcherOutcome.
Local Open Scope nat_scope.
Variable net : network.



End FetcherOutcome.

Lemma download_loop_requests_bound net url p m atts w :
  (w_requests (snd (download_loop net url p m atts w))
   <= w_requests w + length atts)%nat.
Proof.
  revert w. induction atts as [|a rest IH]; intros w; [cbn; lia|].
  cbn [download_loop length].
  pose proof (try_download_requests net url p w) as Ht.
  destruct (try_download net url p w) as [[| |] w1]; cbn [snd] in *.
  - lia.
  - etransitivity; [apply IH|]. destruct (a <? m - 1)%nat; cbn; lia.
  - cbv zeta. destruct (a <? m - 1)%nat.
    + etransitivity; [apply IH|]. cbn. destruct (exists_file _ _); cbn; lia.
    + cbn. destruct (exists_file _ _); cbn; lia.
Qed.

(** *** The extractor's writes *)

Lemma extractall_frame tg d ms w k :
  (forall m, In m ms -> tg d (fst m) <> k) ->
  w_files (extractall tg d ms w) !! k = w_files w !! k.
Proof.
  unfold extractall. revert w.
  induction ms as [|m ms IH]; intros w H; [reflexivity|].
  cbn [fold_left]. rewrite IH by (intros m' Hm'; apply H; now right).
  cbn. apply lookup_insert_ne. apply H. now left.
Qed.

Lemma zip_target_inside d n : OS.realpath d `prefix_of` OS.zip_target d n.
Proof.
  unfold OS.zip_target, OS.realpath. rewrite fold_left_app.
  rewrite (resolve_ordinary (fold_left OS.resolve_step d [])).
  - now apply prefix_app_r.
  - apply List.Forall_forall. intros c Hc.
    apply filter_In in Hc as [_ Hc].
    apply negb_true_iff, orb_false_iff in Hc. exact Hc.
Qed.

(** *** Order of exactly represented quotients *)

Section FloatOrder.

Lemma switch_Eq_Eq c : Pos.switch_Eq Eq c = c.
Proof. now destruct c. Qed.

(** On positive integers below [2^53], normalisation keeps the order. *)
Lemma SFcompare_normal_pos x y e :
  0 < x < 2 ^ 53 -> 0 < y < 2 ^ 53 ->
  let dx := digits (Z.to_pos x) in
  let dy := digits (Z.to_pos y) in
  match Z.compare (e + dx - 53) (e + dy - 53) with
  | Lt => Lt
  | Gt => Gt
  | Eq => Pos.compare_cont Eq (Z.to_pos (x * 2 ^ (53 - dx)))
            (Z.to_pos (y * 2 ^ (53 - dy)))
  end = Z.compare x y.
Proof.
  intros Hx Hy dx dy.
  pose proof (digits_bounds (Z.to_pos x)) as [Xlo Xhi].
  pose proof (digits_bounds (Z.to_pos y)) as [Ylo Yhi].
  rewrite Z2Pos.id in Xlo, Xhi, Ylo, Yhi by lia.
  pose proof (digits_pos (Z.to_pos x)) as Xp.
  pose proof (digits_pos (Z.to_pos y)) as Yp.
  pose proof (digits_le (Z.to_pos x) 53 ltac:(lia)) as Xle.
  pose proof (digits_le (Z.to_pos y) 53 ltac:(lia)) as Yle.
  rewrite Z2Pos.id in Xle, Yle by lia.
  specialize (Xle (proj2 Hx)). specialize (Yle (proj2 Hy)).
  fold dx in Xlo, Xhi, Xp, Xle. fold dy in Ylo, Yhi, Yp, Yle.
  destruct (Z.compare_spec (e + dx - 53) (e + dy - 53)) as [Heq|Hlt|Hgt].
  - assert (Hd : dx = dy) by lia. rewrite Hd.
    assert (Hp : 0 < 2 ^ (53 - dy)) by (apply Z.pow_pos_nonneg; lia).
    rewrite Pos.compare_cont_spec, switch_Eq_Eq.
    rewrite Pos2Z.inj_compare, !Z2Pos.id by nia.
    destruct (Z.compare_spec x y) as [->|H|H].
    + now rewrite Z.compare_refl.
    + apply Z.compare_lt_iff. nia.
    + apply Z.compare_gt_iff. nia.
  - symmetry. apply Z.compare_lt_iff.
    assert (2 ^ dx <= 2 ^ (dy - 1)) by (apply Z.pow_le_mono_r; lia). lia.
  - symmetry. apply Z.compare_gt_iff.
    assert (2 ^ dy <= 2 ^ (dx - 1)) by (apply Z.pow_le_mono_r; lia). lia.
Qed.

Lemma normalize_range z e :
  z <> 0 -> Z.abs z < 2 ^ 53 -> -1021 <= e <= 918 ->
  -1074 <= e + digits (Z.to_pos (Z.abs z)) - 53 <= 971.
Proof.
  intros Hz Hlt He.
  pose proof (digits_pos (Z.to_pos (Z.abs z))).
  pose proof (digits_le (Z.to_pos (Z.abs z)) 53 ltac:(lia)) as Hle.
  rewrite Z2Pos.id in Hle by lia. specialize (Hle Hlt). lia.
Qed.

(** Comparing two exactly represented quotients is comparing the
    integers. *)
Lemma SFcompare_normalize x y e :
  Z.abs x < 2 ^ 53 -> Z.abs y < 2 ^ 53 -> -1021 <= e <= 918 ->
  SFcompare (binary_normalize 53 1024 x e false)
            (binary_normalize 53 1024 y e false)
  = Some (Z.compare x y).
Proof.
  intros Hx Hy He.
  destruct (Z.eq_dec x 0) as [->|Hx0]; destruct (Z.eq_dec y 0) as [->|Hy0].
  - reflexivity.
  - rewrite (binary_normalize_exact y e) by (auto using normalize_range).
    cbn [binary_normalize SFcompare].
    destruct (Z.ltb_spec y 0); f_equal; symmetry;
      [apply Z.compare_gt_iff | apply Z.compare_lt_iff]; lia.
  - rewrite (binary_normalize_exact x e) by (auto using normalize_range).
    cbn [binary_normalize SFcompare].
    destruct (Z.ltb_spec x 0); f_equal; symmetry;
      [apply Z.compare_lt_iff | apply Z.compare_gt_iff]; lia.
  - rewrite (binary_normalize_exact x e), (binary_normalize_exact y e)
      by (auto using normalize_range).
    cbn [SFcompare].
    destruct (Z.ltb_spec x 0) as [Hxn|Hxp], (Z.ltb_spec y 0) as [Hyn|Hyp];
      f_equal.
    + (* both negative *)
      pose proof (SFcompare_normal_pos (Z.abs y) (Z.abs x) e
                    ltac:(lia) ltac:(lia)) as H. cbv zeta in H.
      rewrite (Z.compare_antisym (e + digits (Z.to_pos (Z.abs y)) - 53)).
      rewrite (Pos.compare_cont_antisym _ _ Eq). cbn [CompOpp].
      replace (x ?= y) with (Z.abs y ?= Z.abs x).
      2:{ rewrite !Z.abs_neq by lia. apply Z.compare_opp. }
      rewrite <- H.
      destruct (e + digits (Z.to_pos (Z.abs y)) - 53
                ?= e + digits (Z.to_pos (Z.abs x)) - 53); cbn [CompOpp];
        reflexivity.
    + symmetry. apply Z.compare_lt_iff. lia.
    + symmetry. apply Z.compare_gt_iff. lia.
    + pose proof (SFcompare_normal_pos (Z.abs x) (Z.abs y) e
                    ltac:(lia) ltac:(lia)) as H. cbv zeta in H.
      rewrite H. rewrite !Z.abs_eq by lia. reflexivity.
Qed.
End FloatOrder.

(** *** Requests per entry, category and batch *)

Section Accounting.
Local Open Scope nat_scope.
Variable net : network.

Lemma download_loop_makes_a_request url p m a rest w :
  w_requests w < w_requests (snd (download_loop net url p m (a :: rest) w)).
Proof.
  cbn [download_loop].
  pose proof (try_download_requests net url p w) as Ht.
  destruct (try_download net url p w) as [[| |] w1]; cbn [snd] in *.
  - lia.
  - eapply Nat.lt_le_trans; [|apply download_loop_requests].
    destruct (a <? m - 1); cbn; lia.
  - cbv zeta. destruct (a <? m - 1).
    + eapply Nat.lt_le_trans; [|apply download_loop_requests].
      cbn. destruct (exists_file _ _); cbn; lia.
    + cbn. destruct (exists_file _ _); cbn; lia.
Qed.

Lemma download_file_three url p w :
  w_requests w < w_requests (snd (download_file net url p 3 w))
  <= w_requests w + 3.
Proof.
  unfold download_file. split.
  - apply download_loop_makes_a_request.
  - apply (download_loop_requests_bound net url p 3 (seq 0 3) w).
Qed.

(** What one pass of the loop body costs and where it writes. *)
Lemma process_file_requests model_dir filename info fl w o fl' w' :
  process_file net model_dir filename info fl w = Some (o, fl', w') ->
  if attempted o
  then w_requests w < w_requests w' <= w_requests w + 3
  else w_requests w' = w_requests w.
Proof.
  intros H. apply process_file_anatomy in H.
  destruct H as [(-> & _ & _ & ->) | (_ & temp & wd & b & Htemp & Hdl & H)];
    [reflexivity|].
  pose proof (download_file_three (url info) temp
                (print (EvDownloading filename)
                   (snd (verify_file (joinpath model_dir filename)
                           (size_gb info) w)))) as Hreq.
  rewrite Hdl in Hreq. cbn [snd print w_requests] in Hreq.
  rewrite (proj2 (proj2 (verify_file_spec _ _ _))) in Hreq.
  pose proof (temp_path_suffix _ _ Htemp) as [_ Hsfx].
  destruct H as [(_ & -> & _ & ->) | [(_ & _ & -> & _ & ->) |
    [(_ & _ & _ & -> & _ & wr & Hr & ->) |
    [(_ & _ & _ & _ & -> & _ & Hu) | (_ & _ & _ & _ & -> & _ & ->)]]]];
    cbn [attempted print w_requests].
  - exact Hreq.
  - now rewrite (proj2 (proj2 (verify_file_spec _ _ _))).
  - unfold rename in Hr. destruct (w_files wd !! _); [|discriminate].
    injection Hr as <-. exact Hreq.
  - unfold unlink in Hu. destruct (w_files _ !! _); [|discriminate].
    injection Hu as <-. cbn [set_files w_requests].
    now rewrite (extract_archive_tmp_requests _ _ _ Hsfx).
  - now rewrite (extract_archive_tmp_requests _ _ _ Hsfx).
Qed.

Lemma process_files_requests model_dir entries fl w os fl' w' :
  process_files net model_dir entries fl w = Some (os, fl', w') ->
  w_requests w + attempts_of os <= w_requests w'
  <= w_requests w + 3 * attempts_of os.
Proof.
  revert fl w os fl' w'.
  induction entries as [|[n i] rest IH]; intros fl w os fl' w' H.
  - injection H as <- <- <-. cbn. lia.
  - cbn [process_files] in H.
    destruct (process_file net model_dir n i fl w)
      as [[[o fl1] w1]|] eqn:Hp; [|discriminate].
    destruct (process_files net model_dir rest fl1 w1)
      as [[[os1 fl2] w2]|] eqn:Hps; [|discriminate].
    injection H as <- <- <-.
    apply IH in Hps. apply process_file_requests in Hp.
    unfold attempts_of in *. cbn [List.filter snd].
    destruct (attempted o); cbn [length]; lia.
Qed.

Variable statvfs : gmap path file -> option (Z * Z).
Variable models : catalog.

(** The branches of [download_model_category], read off its result. *)
Lemma download_model_category_anatomy category w r w' :
  download_model_category net statvfs models category w = Some (r, w') ->
  (report r = [] /\ returned r = false
   /\ w_files w' = w_files w /\ w_requests w' = w_requests w
   /\ (lookup_category models category = None
       \/ exists model_config,
           lookup_category models category = Some model_config
           /\ check_disk_space statvfs
                (PyFloat.add (total_size_gb (files model_config)) PyFloat.one)
                (print (EvCategory category) w) = false))
  \/ exists model_config fl w1,
      lookup_category models category = Some model_config
      /\ check_disk_space statvfs
           (PyFloat.add (total_size_gb (files model_config)) PyFloat.one)
           (print (EvCategory category) w) = true
      /\ process_files net (dir model_config) (files model_config)
           (Flags true true) (print (EvCategory category) w)
         = Some (report r, fl, w1)
      /\ returned r = required_success fl
      /\ w_files w' = w_files w1 /\ w_requests w' = w_requests w1.
Proof.
  unfold download_model_category.
  destruct (lookup_category models category) as [cfg|].
  - destruct (check_disk_space _ _ _) eqn:Hc; cbn [negb].
    + destruct (process_files _ _ _ _ _) as [[[os fl] w1]|] eqn:Hp;
        [|discriminate].
      intros [= <- <-]. right. exists cfg, fl, w1.
      repeat split; try reflexivity; now destruct (required_success fl).
    + intros [= <- <-]. left. repeat split. right. now exists cfg.
  - intros [= <- <-]. left. repeat split. now left.
Qed.

Lemma run_categories_requests categories b w rs b' w' :
  run_categories net statvfs models categories b w = Some (rs, b', w') ->
  w_requests w + batch_attempts rs <= w_requests w'
  <= w_requests w + 3 * batch_attempts rs.
Proof.
  revert b w rs b' w'.
  induction categories as [|c rest IH]; intros b w rs b' w' H.
  - injection H as <- <- <-. cbn. lia.
  - cbn [run_categories] in H.
    destruct (download_model_category net statvfs models c w)
      as [[r w1]|] eqn:Hc; [|discriminate].
    destruct (run_categories net statvfs models rest _ w1)
      as [[[rs1 b1] w2]|] eqn:Hr; [|discriminate].
    injection H as <- <- <-.
    apply IH in Hr. cbn [batch_attempts fold_right snd].
    fold (batch_attempts rs1). apply download_model_category_anatomy in Hc.
    destruct Hc as [(-> & _ & _ & Hq & _)
                   | (cfg & fl & w0 & _ & _ & Hp & _ & _ & Hq)].
    + cbn. lia.
    + apply process_files_requests in Hp. cbn [print w_requests] in Hp. lia.
Qed.
End Accounting.

(** *** A catalog that is already in place *)

Lemma lookup_category_In models c cfg :
  lookup_category models c = Some cfg -> In (c, cfg) models.
Proof.
  induction models as [|[k v] rest IH]; [discriminate|].
  cbn [lookup_category]. destruct (String.eqb_spec k c) as [->|Hne].
  - intros [= ->]. now left.
  - intros H. right. now apply IH.
Qed.



Section Skipping.
Variable net : network.
Variable statvfs : gmap path file -> option (Z * Z).
Variable models : catalog.

End Skipping.

(** *** Temporary files and status *)

Section CleanupFacts.
Local Open Scope string_scope.

Lemma ends_with_append sfx s : ends_with sfx (s +:+ sfx) = true.
Proof.
  unfold ends_with. rewrite length_append.
  replace (String.length s + String.length sfx - String.length sfx)%nat
    with (String.length s) by lia.
  rewrite skip_length_append, String.eqb_refl, andb_true_r.
  apply Nat.leb_le. lia.
Qed.

Lemma strip_prefix_app d k : strip_prefix d (d ++ k)%list = Some k.
Proof.
  induction d as [|c d IH]; [reflexivity|].
  cbn. now rewrite String.eqb_refl.
Qed.

Lemma strip_prefix_Some d k r :
  strip_prefix d k = Some r -> k = (d ++ r)%list.
Proof.
  revert k. induction d as [|c d IH]; intros k; [now intros [= ->]|].
  destruct k as [|c' k]; [discriminate|]. cbn.
  destruct (String.eqb_spec c c') as [->|]; [|discriminate].
  intros H. now rewrite (IH k H).
Qed.

Lemma temp_leftover_iff d k :
  temp_leftover d k = true
  <-> exists c n, k = (OS.realpath d ++ [c; n])%list
                  /\ ends_with ".tmp" n = true.
Proof.
  unfold temp_leftover. split.
  - destruct (strip_prefix (OS.realpath d) k) as [[|c [|n [|? ?]]]|] eqn:Hs;
      try discriminate.
    intros H. apply strip_prefix_Some in Hs. now exists c, n.
  - intros (c & n & -> & H). now rewrite strip_prefix_app.
Qed.

Lemma existsb_map_to_list (P : path -> bool) (fs : gmap path file) :
  existsb (fun kv => P (fst kv)) (map_to_list fs) = true
  <-> exists k f, fs !! k = Some f /\ P k = true.
Proof.
  rewrite existsb_exists. split.
  - intros ([k f] & Hin & HP). exists k, f. split; [|exact HP].
    now apply elem_of_map_to_list, list_elem_of_In.
  - intros (k & f & Hk & HP). exists (k, f). split; [|exact HP].
    now apply list_elem_of_In, elem_of_map_to_list.
Qed.

Lemma filter_lookup (P : path -> bool) (fs : gmap path file) k :
  filter (fun kv : path * file => P (fst kv) = false) fs !! k
  = if P k then None else fs !! k.
Proof.
  destruct (P k) eqn:HP.
  - apply map_lookup_filter_None. right. intros f _. cbn. congruence.
  - destruct (fs !! k) as [f|] eqn:Hk.
    + apply map_lookup_filter_Some. now split.
    + apply map_lookup_filter_None. now left.
Qed.

Lemma filter_nothing {A} (f : A -> bool) (l : list A) :
  (forall x, In x l -> f x = false) -> List.filter f l = [].
Proof.
  induction l as [|x l IH]; intros H; [reflexivity|].
  cbn. rewrite (H x) by now left. apply IH. intros y Hy. apply H. now right.
Qed.

(** What [cleanup_temp_files] does to each path, and when it raises. *)
Lemma cleanup_lookup d w ns w' :
  cleanup_temp_files d w = Some (ns, w') ->
  w_requests w' = w_requests w
  /\ w_files w !! OS.realpath d = None
  /\ (forall k f, w_files w !! k = Some f -> temp_directory d k = false)
  /\ forall k, w_files w' !! k
               = if temp_leftover d k then None else w_files w !! k.
Proof.
  unfold cleanup_temp_files.
  destruct (bool_decide _) eqn:Hb; [discriminate|]. cbn [orb].
  destruct (existsb _ _) eqn:He; [discriminate|].
  intros [= <- <-]. cbn [set_files w_requests w_files].
  split; [reflexivity|]. split; [|split].
  - apply bool_decide_eq_false in Hb.
    destruct (w_files w !! OS.realpath d); [|reflexivity].
    exfalso. apply Hb. eauto.
  - intros k f Hk. destruct (temp_directory d k) eqn:Ht; [|reflexivity].
    rewrite <- He. symmetry.
    apply (existsb_map_to_list (temp_directory d)). eauto.
  - intros k. apply (filter_lookup (temp_leftover d)).
Qed.

Lemma cleanup_returns d w :
  w_files w !! OS.realpath d = None ->
  (forall k f, w_files w !! k = Some f -> temp_directory d k = false) ->
  cleanup_temp_files d w
  = Some (map (fun kv => name (fst kv))
            (List.filter (fun kv => temp_leftover d (fst kv))
               (map_to_list (w_files w))),
          set_files
            (filter (fun kv => temp_leftover d (fst kv) = false)
               (w_files w)) w).
Proof.
  intros Hd Ht. unfold cleanup_temp_files.
  replace (bool_decide (is_Some (w_files w !! OS.realpath d))) with false.
  2:{ symmetry. apply bool_decide_eq_false. rewrite Hd. now intros [? ?]. }
  cbn [orb].
  destruct (existsb _ _) eqn:He; [|reflexivity].
  apply (existsb_map_to_list (temp_directory d)) in He as (k & f & Hk & H).
  rewrite (Ht k f Hk) in H. discriminate.
Qed.
End CleanupFacts.

Lemma unique_key {A} (l : list (string * A)) k a b :
  NoDup (map fst l) -> In (k, a) l -> In (k, b) l -> a = b.
Proof.
  induction l as [|[k' v] l IH]; intros Hnd Ha Hb; [destruct Ha|].
  cbn [map fst] in Hnd. apply NoDup_cons in Hnd as [Hnotin Hnd].
  assert (Hno : forall x, In (k', x) l -> False).
  { intros x Hx. apply Hnotin, list_elem_of_In.
    change k' with (fst (k', x)). now apply in_map. }
  destruct Ha as [[= -> ->]|Ha], Hb as [[= <-]|Hb]; try reflexivity.
  - destruct (Hno _ Hb).
  - subst. destruct (Hno _ Ha).
  - now apply IH.
Qed.

Lemma valid_file_exists model_dir filename e w :
  valid_file (w_files w) (joinpath model_dir filename) e = true ->
  fs_exists (file_status_of model_dir filename w) = true.
Proof.
  unfold valid_file, file_status_of.
  now destruct (w_files w !! _).
Qed.

(** * The properties of the specification *)

Import Scenario.

(** ** Extraction and path traversal *)

(** C1 (the code does not do this).  The archive [weights.tar] holds a
    member named [../../escape.txt].  The extractor prints that it skips
    the member, extracts it all the same, to a file outside the target
    directory, and answers [True]. *)
Theorem traversal_member_is_extracted :
  let r := extract_archive escaping_path alphafold_dir escaping_world in
  fst r = true
  /\ In (EvSuspicious "../../escape.txt") (w_log (snd r))
  /\ OS.join_resolve alphafold_dir "../../escape.txt"
     = ["content"; "escape.txt"]%string
  /\ w_files (snd r) !! (["content"; "escape.txt"]%string : path)
     = Some (File 5 Opaque)
  /\ OS.inside alphafold_dir ["content"; "escape.txt"]%string = false
  /\ w_files (snd r)
       !! OS.realpath (joinpath alphafold_dir "params_model_1.npz")
     = Some (File 7 Opaque).
Proof. vm_compute. intuition. Qed.

(** C2.  For every entry that is not skipped, the runner works on the
    temporary path, whose name is the final name with [".tmp"] appended and
    whose suffix is therefore [".tmp"]; the extractor, when it runs, is
    given that path.  When that name does not contain [".tar."], the
    extractor classifies it as an unknown format and answers [False]
    without touching the files, so an entry marked [extract] is neither
    extracted nor promoted: after a verified download it fails with the
    files left as the download left them. *)
Theorem extractor_gives_up_on_temporary_path
    (net : network) (model_dir : path) (filename : string) (info : file_info)
    (fl : flags) (w w' : world) (o : outcome) (fl' : flags) :
  process_file net model_dir filename info fl w = Some (o, fl', w') ->
  o <> AlreadyValid ->
  let filepath := joinpath model_dir filename in
  exists temp,
    with_suffix filepath (suffix filepath +:+ ".tmp") = Some temp
    /\ name temp = name filepath +:+ ".tmp"
    /\ suffix temp = ".tmp"%string
    /\ (o = ExtractedOk \/ o = ExtractFailed ->
        extract info = true
        /\ In (EvExtracting (name temp)) (w_log w'))
    /\ (Str.contains ".tar." (name temp) = false ->
        (forall d w0,
            extract_archive temp d w0
            = (false, print (EvUnknownFormat temp)
                        (print (EvExtracting (name temp)) w0)))
        /\ (extract info = true ->
            o <> ExtractedOk /\ o <> Promoted
            /\ (o = ExtractFailed ->
                In (EvUnknownFormat temp) (w_log w')
                /\ exists wd,
                    download_file net (url info) temp 3
                      (print (EvDownloading filename)
                         (snd (verify_file filepath (size_gb info) w)))
                    = (true, wd)
                    /\ w_files w' = w_files wd))).
Proof.
  intros H Ho filepath.
  apply process_file_anatomy in H. fold filepath in H.
  destruct H as [(-> & _) | (_ & temp & wd & b & Htemp & Hd & H)];
    [congruence|].
  exists temp. split; [exact Htemp|].
  pose proof (temp_path_suffix _ _ Htemp) as [Hname Hsfx].
  split; [exact Hname|]. split; [exact Hsfx|].
  assert (Hunk : Str.contains ".tar." (name temp) = false ->
    forall d w0, extract_archive temp d w0
      = (false, print (EvUnknownFormat temp)
                  (print (EvExtracting (name temp)) w0))).
  { intros Hc d w0. rewrite (extract_archive_tmp temp d w0 Hsfx).
    now rewrite Hc. }
  split.
  - intros Hoo.
    destruct H as [(_ & -> & _) | [(_ & _ & -> & _) | [(_ & _ & _ & -> & _) |
      [(-> & _ & Hx & Hok & _ & _ & Hu) | (-> & _ & Hx & _ & _ & _ & ->)]]]];
      try (destruct Hoo; discriminate).
    + split; [exact Hx|].
      unfold unlink in Hu.
      destruct (w_files _ !! _); [|discriminate]. injection Hu as <-. cbn.
      apply extract_archive_announces.
    + split; [exact Hx|]. apply In_log_print, extract_archive_announces.
  - intros Hc. split; [now apply Hunk|]. intros Hx.
    destruct H as [(_ & -> & _) | [(_ & _ & -> & _) | [(_ & _ & Hx' & _) |
      [(_ & _ & _ & Hok & _) | (-> & _ & _ & _ & -> & _ & ->)]]]].
    + repeat split; discriminate.
    + repeat split; discriminate.
    + congruence.
    + rewrite (Hunk Hc) in Hok. discriminate.
    + split; [discriminate|]. split; [discriminate|]. intros _.
      rewrite (Hunk Hc). cbn [snd]. split.
      * apply In_log_print, In_log_print_eq.
      * exists wd. split; [exact Hd | reflexivity].
Qed.

Lemma extractor_gives_up_on_temporary_path_witness :
  exists temp,
    with_suffix (joinpath alphafold_dir "params_model_1.npz")
      (suffix (joinpath alphafold_dir "params_model_1.npz") +:+ ".tmp")
    = Some temp
    /\ name temp = "params_model_1.npz.tmp"%string
    /\ step_outcome alphafold_step = ExtractFailed
    /\ In (EvUnknownFormat temp) (w_log (step_world alphafold_step)).
Proof.
  destruct (extractor_gives_up_on_temporary_path
              (always (Complete alphafold_archive)) alphafold_dir
              "params_model_1.npz" alphafold_info (Flags true true)
              empty_world (step_world alphafold_step)
              (step_outcome alphafold_step) (step_flags alphafold_step))
    as (temp & Ht & Hn & _ & _ & H).
  - vm_compute. reflexivity.
  - vm_compute. discriminate.
  - exists temp. split; [exact Ht|]. split; [exact Hn|].
    split; [vm_compute; reflexivity|].
    rewrite Hn in H. apply H; vm_compute; reflexivity.
Defined.



(** ** Resuming *)

(** C3, amended.  In a clean directory, with simple, distinct entry names
    none of which is another one followed by [".tmp"]: if a run of a
    category reached the loop and ended with every entry either skipped as
    already valid or fetched, verified and renamed to its final path, then
    every entry has a valid file at its final path, and a second run on the
    files the first one left, whatever the network and the free space, makes
    no request, leaves the files as they are and skips every entry it
    reaches. *)
Theorem second_run_performs_no_download
    (net net' : network)
    (statvfs statvfs' : gmap path file -> option (Z * Z))
    (models : catalog) (category : string) (model_config : category_config)
    (w w1 : world) (r1 : category_result) :
  lookup_category models category = Some model_config ->
  clean_dir (dir model_config) = true ->
  (forall n, In n (map fst (files model_config)) -> simple_name n = true) ->
  NoDup (map fst (files model_config)) ->
  (forall n m, In n (map fst (files model_config)) ->
               In m (map fst (files model_config)) -> n <> m +:+ ".tmp") ->
  download_model_category net statvfs models category w = Some (r1, w1) ->
  map fst (report r1) = map fst (files model_config) ->
  (forall n o, In (n, o) (report r1) -> o = AlreadyValid \/ o = Promoted) ->
  (forall n i, In (n, i) (files model_config) ->
     valid_file (w_files w1) (joinpath (dir model_config) n) (size_gb i)
     = true)
  /\ exists r2 w2,
      download_model_category net' statvfs' models category w1
      = Some (r2, w2)
      /\ w_requests w2 = w_requests w1
      /\ w_files w2 = w_files w1
      /\ (forall n o, In (n, o) (report r2) -> o = AlreadyValid)
      /\ (check_disk_space statvfs'
            (PyFloat.add (total_size_gb (files model_config)) PyFloat.one)
            (print (EvCategory category) w1) = true ->
          returned r2 = true
          /\ map fst (report r2) = map fst (files model_config)).
Proof.
  intros Hc Hd Hs Hnd Hti Hrun Hnames Hos.
  assert (Hvalid : forall n i, In (n, i) (files model_config) ->
     valid_file (w_files w1) (joinpath (dir model_config) n) (size_gb i)
     = true).
  { unfold download_model_category in Hrun. rewrite Hc in Hrun.
    destruct (negb (check_disk_space _ _ _)).
    - injection Hrun as <- <-. cbn in Hnames.
      symmetry in Hnames. apply map_eq_nil in Hnames. rewrite Hnames.
      intros ? ? [].
    - destruct (process_files _ _ _ _ _) as [[[os fl] w0]|] eqn:Hp;
        [|discriminate].
      injection Hrun as <- <-. cbn [report] in Hos.
      destruct (process_files_done net _ _ _ _ _ _ _ Hd Hs Hnd Hti Hp Hos)
        as [Hv _].
      intros n i Hin. specialize (Hv n i Hin).
      now destruct (negb (required_success fl)). }
  split; [exact Hvalid|].
  unfold download_model_category. rewrite Hc.
  destruct (check_disk_space statvfs' _ _) eqn:Hsp; cbn [negb].
  - destruct (process_files_all_valid net' (dir model_config)
                (files model_config) (Flags true true)
                (print (EvCategory category) w1) Hvalid)
      as (w2 & -> & Hf & Hr).
    cbn [required_success negb]. do 2 eexists. split; [reflexivity|].
    cbn [report returned]. repeat split; try assumption.
    + intros n o (e & [= <- <-] & _)%in_map_iff. reflexivity.
    + rewrite map_map. reflexivity.
  - do 2 eexists. split; [reflexivity|]. cbn. repeat split; try easy.
Qed.

Lemma second_run_performs_no_download_witness :
  exists r2 w2,
    download_model_category (always ConnectionError) (statvfs_free 4096 0)
      plain_models "plain" (run_world plain_first) = Some (r2, w2)
    /\ w_requests w2 = w_requests (run_world plain_first)
    /\ w_files w2 = w_files (run_world plain_first).
Proof.
  destruct (second_run_performs_no_download
              (always (Complete half_gib)) (always ConnectionError)
              statvfs_raises (statvfs_free 4096 0)
              plain_models "plain" plain_config empty_world
              (run_world plain_first) (run_result plain_first))
    as (_ & r2 & w2 & Hrun & Hreq & Hfiles & _).
  - reflexivity.
  - reflexivity.
  - intros n [<-|[<-|[]]]; reflexivity.
  - repeat constructor; cbn; rewrite ?list_elem_of_In; cbn; intuition discriminate.
  - intros n m [<-|[<-|[]]] [<-|[<-|[]]]; discriminate.
  - vm_compute. reflexivity.
  - vm_compute. reflexivity.
  - intros n o. vm_compute.
    intros [[= <- <-]|[[= <- <-]|[]]]; [right | right]; reflexivity.
  - exists r2, w2. split; [exact Hrun|]. split; [exact Hreq | exact Hfiles].
Defined.

(** C3, as stated, fails: the first run fetches [bundle.tar], extracts it
    and deletes the archive, reporting success; nothing is at the final
    path, so the second run fetches it again. *)
Lemma second_run_fetches_extracted_archive_again :
  returned (run_result bundle_first) = true
  /\ report (run_result bundle_first) = [("bundle.tar"%string, ExtractedOk)]
  /\ w_requests (run_world bundle_first) = 1%nat
  /\ w_files (run_world bundle_first)
       !! OS.realpath (joinpath (joinpath models_dir "weights") "bundle.tar")
     = None
  /\ report (run_result bundle_second) = [("bundle.tar"%string, ExtractedOk)]
  /\ w_requests (run_world bundle_second) = 2%nat.
Proof. vm_compute. intuition. Qed.

(** ** Retries *)

(** C4 (the code does not do this).  Against a source that answers every
    request with an empty body, [download_file] with three attempts issues
    exactly three requests and answers [False], but an empty file is left at
    the destination. *)
Theorem empty_download_is_left_behind :
  let p := (alphafold_dir ++ ["params_model_1.npz.tmp"%string])%list in
  let r := download_file empty_body "https://example.org/empty" p 3
             empty_world in
  fst r = false
  /\ w_requests (snd r) = 3%nat
  /\ w_files (snd r) !! OS.realpath p = Some (File 0 Opaque).
Proof. vm_compute. intuition. Qed.

(** ** Verification *)

(** C5, amended.  An entry that the loop body does not report as failed
    took one of three branches: it was skipped because the file at its
    final path exists and does not mismatch the declared size (the file may
    be empty); or it was fetched and renamed, and the file at its final path
    is non-empty and does not mismatch the declared size; or it is marked
    [extract] and the fetched archive was non-empty and did not mismatch the
    declared size.  A size mismatch is only ever found against a declared
    size that is not zero. *)
Theorem reported_success_is_backed_by_a_file
    (net : network) (model_dir : path) (filename : string) (info : file_info)
    (fl : flags) (w w' : world) (o : outcome) (fl' : flags) :
  process_file net model_dir filename info fl w = Some (o, fl', w') ->
  failed o = false ->
  let final := OS.realpath (joinpath model_dir filename) in
  (o = AlreadyValid
   /\ w_files w' = w_files w
   /\ exists f, w_files w' !! final = Some f
                /\ size_mismatch (st_size f) (size_gb info) = false)
  \/ (o = Promoted
      /\ exists f, w_files w' !! final = Some f
                   /\ 0 < st_size f
                   /\ size_mismatch (st_size f) (size_gb info) = false)
  \/ (o = ExtractedOk
      /\ extract info = true
      /\ exists f t, net t (url info) = Complete f
                     /\ 0 < st_size f
                     /\ size_mismatch (st_size f) (size_gb info) = false).
Proof.
  intros H Hok final.
  apply process_file_anatomy in H.
  destruct H as [(-> & Hv & -> & ->) | (Hinv & temp & wd & b & Htemp & Hd & H)].
  - left. split; [reflexivity|]. split; [reflexivity|].
    now apply valid_file_Some in Hv.
  - destruct H as [(_ & -> & _) | [(_ & _ & -> & _) | [H | [H | H]]]];
      try discriminate.
    + destruct H as (-> & Hv & Hx & -> & -> & wr & Hr & ->).
      right; left. split; [reflexivity|].
      apply download_loop_success in Hd as (f & t & Hn & Hs & Hf).
      apply valid_file_Some in Hv as (g & Hg & Hm).
      rewrite Hf, lookup_insert_eq in Hg. injection Hg as <-.
      exists f. repeat split; try assumption.
      cbn. apply (rename_lookup temp _ wd); [|exact Hr].
      rewrite Hf. apply lookup_insert_eq.
    + destruct H as (-> & Hv & Hx & _ & -> & -> & _).
      right; right. repeat split; try assumption.
      apply download_loop_success in Hd as (f & t & Hn & Hs & Hf).
      apply valid_file_Some in Hv as (g & Hg & Hm).
      rewrite Hf, lookup_insert_eq in Hg. injection Hg as <-.
      eauto.
    + destruct H as (_ & _ & _ & _ & -> & _). discriminate.
Qed.


Lemma reported_success_is_backed_by_a_file_witness :
  step_outcome proteinmpnn_step = Promoted
  /\ exists f,
      w_files (step_world proteinmpnn_step)
        !! (["content"; "models"; "proteinmpnn";
             "proteinmpnn_v_48_020.pt"]%string : path) = Some f
      /\ 0 < st_size f.
Proof.
  destruct (reported_success_is_backed_by_a_file
              (always (Complete half_gib))
              (joinpath models_dir "proteinmpnn") "proteinmpnn_v_48_020.pt"
              (FileInfo "https://files.ipd.uw.edu/pub/training_sets/proteinmpnn_v_48_020.pt"
                        false (Some PyFloat.lit_0_5) true)
              (Flags true true) empty_world (step_world proteinmpnn_step)
              (step_outcome proteinmpnn_step) (step_flags proteinmpnn_step))
    as [(Ho & _) | [(Ho & f & Hf & Hs & _) | (Ho & _)]].
  - vm_compute. reflexivity.
  - vm_compute. reflexivity.
  - exfalso. revert Ho. vm_compute. discriminate.
  - split; [exact Ho|]. exists f. split; [exact Hf | exact Hs].
  - exfalso. revert Ho. vm_compute. discriminate.
Defined.

(** C5, as stated, fails: an entry without a declared size whose file is
    already there, but empty, is skipped and counted as done. *)
Lemma empty_file_is_reported_valid :
  let run := download_model_category (always ConnectionError) statvfs_raises
               (notes_models true) "notes" (notes_world (File 0 Opaque)) in
  returned (run_result run) = true
  /\ report (run_result run) = [("notes.txt"%string, AlreadyValid)]
  /\ w_files (run_world run) !! OS.realpath notes_path
     = Some (File 0 Opaque).
Proof. vm_compute. intuition. Qed.

(** C6, amended.  For an existing file and a declared expected size that
    is finite and not zero, [verify_file] passes exactly when the distance
    between the size in GiB and the expected size, computed in binary64, is
    at most [0.2]; with an expected size of [1.0] and a file between [2^29]
    and [2^31] bytes it passes exactly when the size lies between 0.8 and
    1.2 GiB, that is when [4 * 2^30 <= 5 * size <= 6 * 2^30]. *)
Theorem verify_file_tolerance
    (p : path) (w : world) (f : file) (e : PyFloat.float) :
  w_files w !! OS.realpath p = Some f ->
  PyFloat.truthy e = true ->
  PyFloat.is_finite e = true ->
  (fst (verify_file p (Some e) w) = true
   <-> PyFloat.le
         (PyFloat.abs (PyFloat.sub (PyFloat.truediv_pow2 (st_size f) 30) e))
         PyFloat.lit_0_2 = true)
  /\ (e = PyFloat.one ->
      2 ^ 29 <= st_size f < 2 ^ 31 ->
      (fst (verify_file p (Some e) w) = true
       <-> 4 * 2 ^ 30 <= 5 * st_size f <= 6 * 2 ^ 30)).
Proof.
  intros Hf Ht He.
  assert (Hv : fst (verify_file p (Some e) w) = true
               <-> size_mismatch (st_size f) (Some e) = false).
  { unfold verify_file. rewrite Hf.
    now destruct (size_mismatch (st_size f) (Some e)). }
  split.
  - rewrite Hv. unfold size_mismatch. rewrite Ht. cbn [andb].
    apply not_gt_le; [|reflexivity].
    assert (Hn : is_nan (PyFloat.sub (PyFloat.truediv_pow2 (st_size f) 30) e)
                 = false).
    { apply sub_not_nan; [|exact He]. apply binary_normalize_not_nan. }
    unfold PyFloat.abs.
    now destruct (PyFloat.sub (PyFloat.truediv_pow2 (st_size f) 30) e).
  - intros -> Hs. rewrite Hv, (size_mismatch_one_gib _ Hs).
    rewrite Z.ltb_ge. revert Hs.
    change (2 ^ 29) with 536870912. change (2 ^ 31) with 2147483648.
    change (2 ^ 30) with 1073741824. lia.
Qed.

Lemma verify_file_tolerance_witness :
  fst (verify_file notes_path (Some PyFloat.one) (notes_world one_gib)) = true
  <-> 4 * 2 ^ 30 <= 5 * st_size one_gib <= 6 * 2 ^ 30.
Proof.
  apply (verify_file_tolerance notes_path (notes_world one_gib) one_gib
           PyFloat.one).
  - vm_compute. reflexivity.
  - reflexivity.
  - reflexivity.
  - reflexivity.
  - vm_compute. split; [discriminate | reflexivity].
Defined.

(** The boundary in bytes: 858993460 is the first size of at least 0.8
    GiB and 1288490188 the last of at most 1.2 GiB; 848256041 and
    1299227607 are 0.79 and 1.21 GiB. *)
Example verify_file_boundaries :
  map (fun s => fst (verify_file notes_path (Some PyFloat.one)
                       (notes_world (File s Opaque))))
    [848256041; 858993459; 858993460; 2 ^ 30; 1288490188; 1288490189;
     1299227607]
  = [false; false; true; true; true; false; false].
Proof. vm_compute. reflexivity. Qed.

(** C6, as stated, fails: against a declared size of [0.0] a file of one
    GiB passes, although it is more than [0.2] away from it. *)
Lemma zero_expected_size_always_passes :
  fst (verify_file notes_path (Some PyFloat.zero) (notes_world one_gib))
  = true
  /\ PyFloat.le
       (PyFloat.abs
          (PyFloat.sub (PyFloat.truediv_pow2 (st_size one_gib) 30)
             PyFloat.zero))
       PyFloat.lit_0_2 = false.
Proof. vm_compute. intuition. Qed.

(** ** Required and optional entries *)

(** C7, amended.  For a known category whose space preflight passes, the
    loop gives every entry an outcome, and the category returns [False]
    exactly when some entry with [required = True] failed. *)
Theorem required_verdict_after_preflight
    (net : network) (statvfs : gmap path file -> option (Z * Z))
    (models : catalog) (category : string) (model_config : category_config)
    (w w' : world) (r : category_result) :
  lookup_category models category = Some model_config ->
  check_disk_space statvfs
    (PyFloat.add (total_size_gb (files model_config)) PyFloat.one)
    (print (EvCategory category) w) = true ->
  download_model_category net statvfs models category w = Some (r, w') ->
  map fst (report r) = map fst (files model_config)
  /\ (returned r = false <->
      exists i filename info o,
        files model_config !! i = Some (filename, info)
        /\ report r !! i = Some (filename, o)
        /\ required info = true /\ failed o = true).
Proof.
  intros Hc Hspace H. unfold download_model_category in H.
  rewrite Hc, Hspace in H. cbn [negb] in H.
  destruct (process_files _ _ _ _ _) as [[[os fl] w1]|] eqn:Hp; [|discriminate].
  injection H as <- <-. cbn [returned report].
  apply process_files_report in Hp as [Hn Hf].
  split; [exact Hn|]. rewrite Hf. cbn. split.
  - intros [H|H]; [discriminate | exact H].
  - intros H. now right.
Qed.


Lemma required_verdict_after_preflight_witness :
  map fst (report (run_result proteinmpnn_run))
  = ["proteinmpnn_v_48_020.pt"; "ligandmpnn_v_32_010_25.pt"]%string
  /\ returned (run_result proteinmpnn_run) = true.
Proof.
  destruct (required_verdict_after_preflight
              (always (Complete half_gib)) statvfs_raises
              (default_models models_dir) "proteinmpnn"
              (CategoryConfig (joinpath models_dir "proteinmpnn")
                 (files (snd (nth 1 (default_models models_dir)
                                ("", CategoryConfig [] [])%string))))
              empty_world (run_world proteinmpnn_run)
              (run_result proteinmpnn_run))
    as [Hn _].
  - vm_compute. reflexivity.
  - vm_compute. reflexivity.
  - vm_compute. reflexivity.
  - split; [rewrite Hn|]; vm_compute; reflexivity.
Defined.

(** C7, as stated, fails: with no space left, a category whose only
    entry is optional returns [False], and no entry has failed (none was
    attempted). *)
Lemma no_space_fails_category_without_failed_entry :
  let run := download_model_category (always ConnectionError)
               (statvfs_free 4096 0) (notes_models false) "notes"
               empty_world in
  returned (run_result run) = false
  /\ report (run_result run) = []
  /\ w_requests (run_world run) = 0%nat.
Proof. vm_compute. intuition. Qed.

(** C8, amended.  When the space preflight of the whole batch passes,
    every category is run, and the batch returns [True] exactly when every
    category returned [True]. *)
Theorem overall_success_after_preflight
    (net : network) (statvfs : gmap path file -> option (Z * Z))
    (models : catalog) (w w' : world) (b : bool)
    (rs : list (string * category_result)) :
  check_disk_space statvfs
    (PyFloat.add (all_sizes_gb models) PyFloat.two) (print EvStart w) = true ->
  download_all_models net statvfs models w = Some (b, rs, w') ->
  map fst rs = map fst models
  /\ (b = true <-> forall c r, In (c, r) rs -> returned r = true)
  /\ (forall i c r, rs !! i = Some (c, r) ->
      exists w1 w2,
        download_model_category net statvfs models c w1 = Some (r, w2)).
Proof.
  intros Hspace H. unfold download_all_models in H.
  rewrite Hspace in H. cbn [negb] in H.
  destruct (run_categories _ _ _ _ _ _) as [[[rs1 b1] w1]|] eqn:Hr; [|discriminate].
  injection H as <- <- <-.
  apply run_categories_verdict in Hr as (Hn & Hb & Hall).
  split; [exact Hn|]. split; [|exact Hall].
  rewrite Hb. split; [now intros [_ H] | now split].
Qed.

Lemma overall_success_after_preflight_witness :
  exists rs w',
    download_all_models (always (Complete half_gib)) statvfs_raises
      (notes_models true) empty_world = Some (true, rs, w')
    /\ map fst rs = ["notes"%string].
Proof.
  destruct (download_all_models (always (Complete half_gib)) statvfs_raises
              (notes_models true) empty_world)
    as [[[b rs] w']|] eqn:Hrun; [|vm_compute in Hrun; discriminate].
  destruct (overall_success_after_preflight
              (always (Complete half_gib)) statvfs_raises
              (notes_models true) empty_world w' b rs)
    as (Hn & _ & _).
  - vm_compute. reflexivity.
  - exact Hrun.
  - exists rs, w'. split; [|exact Hn].
    vm_compute in Hrun. injection Hrun as <- <- <-. reflexivity.
Defined.

(** C8, as stated, fails: one GiB is free, the only category needs one
    GiB and its file is already valid, but the batch asks for two GiB and
    returns [False] without running the category, which on its own returns
    [True]. *)
Lemma batch_fails_though_every_category_succeeds :
  let w := notes_world one_gib in
  let sv := statvfs_free (2 ^ 30) 1 in
  (exists w', download_all_models (always ConnectionError) sv
                (notes_models true) w = Some (false, [], w'))
  /\ forall c, In c (map fst (notes_models true)) ->
     exists r w',
       download_model_category (always ConnectionError) sv
         (notes_models true) c w = Some (r, w')
       /\ returned r = true.
Proof.
  split.
  - eexists. vm_compute. reflexivity.
  - intros c [<-|[]]. do 2 eexists. split; vm_compute; reflexivity.
Qed.

(** ** Partial failures *)


(** * Further properties of the downloader *)

Import Housekeeping.

(** ** The fetcher *)

(** X1.  [download_file] answers [True] exactly when one of the responses
    to its [max_retries] requests is a complete, non-empty payload.  When it
    answers [False] it has made all [max_retries] requests.  When the
    [i]-th response is the first usable one, it has made [i + 1] requests
    and the destination holds that payload. *)



(** X2.  Whatever the network does, [download_file] changes no file other
    than its destination and makes at most [max_retries] requests. *)

Theorem download_file_footprint
    (net : network) (url : string) (p : path) (max_retries : nat)
    (w : world) :
  let w' := snd (download_file net url p max_retries w) in
  (forall k : path, k <> OS.realpath p -> w_files w' !! k = w_files w !! k)
  /\ (w_requests w <= w_requests w' <= w_requests w + max_retries)%nat.
Proof.
  cbv zeta. unfold download_file. split; [|split].
  - intros k Hk. now apply download_loop_frame.
  - apply download_loop_requests.
  - etransitivity; [apply download_loop_requests_bound|].
    now rewrite length_seq.
Qed.


(** X3.  When every request ends in a connection error or a broken stream,
    [download_file] makes all its attempts, answers [False] and leaves no
    file at the destination: the partial file of each attempt is removed. *)

Theorem download_file_transport_failures
    (net : network) (url : string) (p : path) (max_retries : nat)
    (w : world) :
  (forall t, transport_failure (net t url) = true) ->
  (0 < max_retries)%nat ->
  let r := download_file net url p max_retries w in
  fst r = false
  /\ w_requests (snd r) = (w_requests w + max_retries)%nat
  /\ w_files (snd r) !! OS.realpath p = None.
Proof.
  intros Hnet Hm. destruct max_retries as [|k]; [lia|].
  apply (download_loop_transport net url p (S k) 0 k w Hnet). lia.
Qed.


Lemma download_file_transport_failures_witness :
  let r := download_file (always (BrokenStream (File 7 Opaque)))
             "https://example.org/a.pt" ["content"; "a.pt.tmp"] 3
             empty_world in
  fst r = false
  /\ w_requests (snd r) = 3%nat
  /\ w_files (snd r) !! OS.realpath ["content"; "a.pt.tmp"] = None.
Proof.
  apply (download_file_transport_failures
           (always (BrokenStream (File 7 Opaque)))
           "https://example.org/a.pt" ["content"; "a.pt.tmp"] 3 empty_world).
  - intros t. reflexivity.
  - lia.
Defined.

(** ** The space preflight *)

(** X4.  For a requirement of [a / 2^30] GB and a file system with
    [f_frsize * f_bavail] free bytes, both below [2^53], the preflight
    passes exactly when [a] is at most the free bytes: the two divisions
    by [2^30] lose nothing.  When [statvfs] raises, it passes. *)

Theorem check_disk_space_threshold
    (statvfs : gmap path file -> option (Z * Z)) (w : world) (a : Z) :
  Z.abs a < 2 ^ 53 ->
  (forall f_frsize f_bavail,
      statvfs (w_files w) = Some (f_frsize, f_bavail) ->
      Z.abs (f_frsize * f_bavail) < 2 ^ 53) ->
  check_disk_space statvfs (PyFloat.truediv_pow2 a 30) w
  = match statvfs (w_files w) with
    | Some (f_frsize, f_bavail) => a <=? f_frsize * f_bavail
    | None => true
    end.
Proof.
  intros Ha Hb. unfold check_disk_space.
  destruct (statvfs (w_files w)) as [[fr bav]|]; [|reflexivity].
  specialize (Hb fr bav eq_refl). set (b := fr * bav) in *.
  assert (Hle : PyFloat.ge (PyFloat.truediv_pow2 b 30)
                          (PyFloat.truediv_pow2 a 30) = (a <=? b)).
  { unfold PyFloat.ge, PyFloat.truediv_pow2, PyFloat.prec, PyFloat.emax, SFleb.
    change (Z.opp 30) with (-30).
    rewrite (SFcompare_normalize a b (-30)) by lia.
    unfold Z.leb. now destruct (a ?= b). }
  assert (Hfin : forall s, PyFloat.truediv_pow2 b 30 <> S754_infinity s).
  { intros s. unfold PyFloat.truediv_pow2, PyFloat.prec, PyFloat.emax.
    change (Z.opp 30) with (-30).
    destruct (Z.eq_dec b 0) as [->|Hb0]; [discriminate|].
    rewrite binary_normalize_exact; [discriminate | assumption.. |].
    apply normalize_range; lia. }
  destruct (PyFloat.truediv_pow2 b 30) as [s|s| |s m e];
    try exact Hle. now destruct (Hfin s).
Qed.


Lemma check_disk_space_threshold_witness :
  check_disk_space (statvfs_free 4096 786432)
    (PyFloat.truediv_pow2 3221225473 30) empty_world = false
  /\ check_disk_space (statvfs_free 4096 786432)
       (PyFloat.truediv_pow2 3221225472 30) empty_world = true.
Proof.
  split.
  - rewrite (check_disk_space_threshold (statvfs_free 4096 786432)
               empty_world 3221225473).
    + reflexivity.
    + vm_compute. reflexivity.
    + intros f_frsize f_bavail [= <- <-]. vm_compute. reflexivity.
  - vm_compute. reflexivity.
Defined.

(** ** The extractor *)

(** X5.  [extract_archive] makes no request and removes no file: every
    path that held a file before still holds one afterwards, whatever the
    archive and whichever branch is taken. *)



(** X6.  In the tar branch every member of a readable archive is written,
    at the path its name resolves to from the target directory; a member
    whose name starts with [/] or contains [..] is reported and written
    all the same; the extractor answers [True]. *)




(** X7.  In the zip branch nothing is written outside the target
    directory: a file at a path that does not lie in it is left as it
    was. *)

Theorem zip_extraction_stays_inside
    (filepath extract_dir : path) (w : world) (k : path) :
  String.eqb (suffix filepath) ".tar"
  || Str.contains ".tar." (name filepath) = false ->
  suffix filepath = ".zip"%string ->
  OS.inside extract_dir k = false ->
  w_files (snd (extract_archive filepath extract_dir w)) !! k
  = w_files w !! k.
Proof.
  intros Htar Hzip Hout. unfold extract_archive. rewrite Htar, Hzip.
  cbn [String.eqb Ascii.eqb Bool.eqb].
  change (String.eqb ".zip" ".zip") with true. cbv iota.
  unfold zip_open. cbn [print w_files].
  destruct (w_files w !! OS.realpath filepath) as [f|]; [|reflexivity].
  destruct (content f) as [|ms|ms|n b]; try reflexivity.
  cbn [snd print w_files]. rewrite extractall_frame.
  - now rewrite (proj1 (check_members_files _ _)).
  - intros m _ E. unfold OS.inside in Hout.
    apply bool_decide_eq_false in Hout. apply Hout. rewrite <- E.
    apply zip_target_inside.
Qed.


Lemma zip_extraction_stays_inside_witness :
  w_files (snd (extract_archive zip_path alphafold_dir zip_world))
    !! ["content"; "escape.txt"]
  = w_files zip_world !! ["content"; "escape.txt"].
Proof.
  apply (zip_extraction_stays_inside zip_path alphafold_dir zip_world
           ["content"; "escape.txt"]).
  - reflexivity.
  - reflexivity.
  - reflexivity.
Defined.

(** ** The category runner *)

(** X8.  An entry that fails (its download, its verification or its
    extraction) has cost between one and three requests and has changed no
    file other than its temporary path; the final path and every other
    entry's files are as they were. *)




(** X9.  A run of a category makes at least one and at most three
    requests for each entry it does not skip, and none for the others. *)

Theorem category_request_bound
    (net : network) (statvfs : gmap path file -> option (Z * Z))
    (models : catalog) (category : string) (w w' : world)
    (r : category_result) :
  download_model_category net statvfs models category w = Some (r, w') ->
  (w_requests w + attempts_of (report r) <= w_requests w'
   <= w_requests w + 3 * attempts_of (report r))%nat.
Proof.
  intros H. apply download_model_category_anatomy in H.
  destruct H as [(-> & _ & _ & -> & _)
                | (cfg & fl & w1 & _ & _ & Hp & _ & _ & ->)].
  - cbn. lia.
  - apply process_files_requests in Hp. exact Hp.
Qed.


Lemma category_request_bound_witness :
  (w_requests empty_world + attempts_of (report (run_result plain_first))
   <= w_requests (run_world plain_first)
   <= w_requests empty_world
      + 3 * attempts_of (report (run_result plain_first)))%nat.
Proof.
  apply (category_request_bound (always (Complete half_gib)) statvfs_raises
           plain_models "plain" empty_world (run_world plain_first)
           (run_result plain_first)).
  vm_compute. reflexivity.
Defined.

(** ** The batch *)

(** X10.  A run of the whole catalog makes at least one and at most three
    requests for each entry, of any category, that is not skipped. *)

Theorem batch_request_bound
    (net : network) (statvfs : gmap path file -> option (Z * Z))
    (models : catalog) (w w' : world) (b : bool)
    (rs : list (string * category_result)) :
  download_all_models net statvfs models w = Some (b, rs, w') ->
  (w_requests w + batch_attempts rs <= w_requests w'
   <= w_requests w + 3 * batch_attempts rs)%nat.
Proof.
  unfold download_all_models.
  destruct (check_disk_space _ _ _); cbn [negb].
  - destruct (run_categories _ _ _ _ _ _) as [[[rs1 b1] w1]|] eqn:Hr;
      [|discriminate].
    intros [= <- <- <-]. apply run_categories_requests in Hr.
    cbn [print w_requests] in Hr. now destruct b1.
  - intros [= <- <- <-]. cbn. lia.
Qed.


Lemma batch_request_bound_witness :
  (w_requests empty_world + batch_attempts (batch_report batch_first)
   <= w_requests (batch_world batch_first)
   <= w_requests empty_world
      + 3 * batch_attempts (batch_report batch_first))%nat.
Proof.
  apply (batch_request_bound (always (Complete half_gib)) statvfs_raises
           plain_models empty_world (batch_world batch_first)
           (batch_verdict batch_first) (batch_report batch_first)).
  vm_compute. reflexivity.
Defined.

(** X11.  When every file of the catalog is in place and valid,
    [download_all_models] returns without a request and without changing a
    file, and no entry is fetched; if moreover the space preflights pass,
    it answers [True] and reports every category. *)




(** ** Temporary files *)

(** X12.  [cleanup_temp_files] removes every file named [*.tmp] that lies
    directly in a subdirectory of the models directory, prints the names of
    exactly those it found, leaves every other file as it was and makes no
    request. *)

Theorem cleanup_temp_files_effect
    (models_dir : path) (w w' : world) (names : list string) :
  cleanup_temp_files models_dir w = Some (names, w') ->
  (forall c n, ends_with ".tmp" n = true ->
     w_files w' !! (OS.realpath models_dir ++ [c; n])%list = None)
  /\ (forall k : path,
        (forall c n, k = (OS.realpath models_dir ++ [c; n])%list ->
                     ends_with ".tmp" n = false) ->
        w_files w' !! k = w_files w !! k)
  /\ (forall n, In n names <->
        exists c m f,
          w_files w !! (OS.realpath models_dir ++ [c; m])%list = Some f
          /\ ends_with ".tmp" m = true /\ n = m)
  /\ w_requests w' = w_requests w.
Proof.
  intros H. pose proof (cleanup_lookup _ _ _ _ H) as (Hr & Hd & Ht & Hl).
  split; [|split; [|split]].
  - intros c n Hn. rewrite Hl.
    now rewrite (proj2 (temp_leftover_iff models_dir _)) by eauto.
  - intros k Hk. rewrite Hl.
    destruct (temp_leftover models_dir k) eqn:E; [|reflexivity].
    apply temp_leftover_iff in E as (c & n & -> & Hn).
    rewrite (Hk c n eq_refl) in Hn. discriminate.
  - rewrite (cleanup_returns _ _ Hd Ht) in H. injection H as <- _.
    intros n. rewrite in_map_iff. split.
    + intros ([k f] & <- & Hin). apply filter_In in Hin as [Hin Hk].
      cbn [fst] in *. apply temp_leftover_iff in Hk as (c & m & -> & Hm).
      exists c, m, f. split; [|split; [exact Hm|]].
      * now apply elem_of_map_to_list, list_elem_of_In.
      * change (c :: [m]) with ([c] ++ [m])%list.
        rewrite app_assoc. apply name_snoc.
    + intros (c & m & f & Hf & Hm & ->).
      exists ((OS.realpath models_dir ++ [c; m])%list, f). split.
      * cbn [fst]. change (c :: [m]) with ([c] ++ [m])%list.
        rewrite app_assoc. apply name_snoc.
      * apply filter_In. split.
        -- now apply list_elem_of_In, elem_of_map_to_list.
        -- cbn [fst]. apply temp_leftover_iff. eauto.
  - exact Hr.
Qed.


Lemma cleanup_temp_files_effect_witness :
  w_files (cleanup_result (cleanup_temp_files models_dir littered_world))
    !! ["content"; "models"; "alphafold"; "params_model_1.npz.tmp"] = None
  /\ w_files (cleanup_result (cleanup_temp_files models_dir littered_world))
       !! ["content"; "notes.tmp"]
     = w_files littered_world !! ["content"; "notes.tmp"].
Proof.
  destruct (cleanup_temp_files_effect models_dir littered_world
              (cleanup_result (cleanup_temp_files models_dir littered_world))
              ["params_model_1.npz.tmp"%string])
    as (Hgone & Hkept & _).
  - vm_compute. reflexivity.
  - split.
    + apply (Hgone "alphafold"%string "params_model_1.npz.tmp"%string).
      reflexivity.
    + apply Hkept. intros c n E. vm_compute in E. discriminate.
Defined.

(** X13.  The temporary path the runner downloads an entry to is one that
    [cleanup_temp_files] clears, when the category directory lies directly
    in the models directory; the entry's final file is kept unless its own
    name ends in [.tmp]. *)

Theorem cleanup_clears_entry_temp_paths
    (models_dir : path) (category filename : string) (w w' : world)
    (names : list string) :
  clean_dir models_dir = true ->
  simple_name category = true ->
  simple_name filename = true ->
  cleanup_temp_files models_dir w = Some (names, w') ->
  let model_dir := joinpath models_dir category in
  exists temp,
    temp_path_of model_dir filename = Some temp
    /\ w_files w' !! OS.realpath temp = None
    /\ (ends_with ".tmp" filename = false ->
        w_files w' !! OS.realpath (joinpath model_dir filename)
        = w_files w !! OS.realpath (joinpath model_dir filename)).
Proof.
  intros Hd Hc Hn H. cbv zeta.
  pose proof (cleanup_lookup _ _ _ _ H) as (_ & _ & _ & Hl).
  rewrite (joinpath_simple models_dir category Hc).
  assert (Hd' : clean_dir (models_dir ++ [category]) = true).
  { unfold clean_dir in *. rewrite forallb_app, Hd. cbn. now rewrite Hc. }
  assert (Hrd : OS.realpath models_dir = models_dir).
  { unfold OS.realpath.
    apply (resolve_ordinary [] models_dir). now apply clean_dir_ordinary. }
  exists ((models_dir ++ [category]) ++ [filename +:+ ".tmp"])%list.
  split; [now apply temp_path_simple|]. split.
  - rewrite (realpath_temp _ _ Hd' Hn), Hl.
    rewrite (proj2 (temp_leftover_iff models_dir _)); [reflexivity|].
    exists category, (filename +:+ ".tmp"). rewrite Hrd, <- app_assoc.
    split; [reflexivity | apply ends_with_append].
  - intros He. rewrite (realpath_final _ _ Hd' Hn), Hl.
    destruct (temp_leftover models_dir _) eqn:E; [|reflexivity].
    apply temp_leftover_iff in E as (c & n & E & Hm).
    rewrite Hrd, <- app_assoc in E. apply app_inv_head in E.
    injection E as <- <-. congruence.
Qed.


Lemma cleanup_clears_entry_temp_paths_witness :
  exists temp,
    temp_path_of (joinpath models_dir "proteinmpnn") "proteinmpnn_v_48_020.pt"
    = Some temp
    /\ w_files (cleanup_result (cleanup_temp_files models_dir littered_world))
         !! OS.realpath temp = None
    /\ w_files (cleanup_result (cleanup_temp_files models_dir littered_world))
         !! OS.realpath (joinpath (joinpath models_dir "proteinmpnn")
                           "proteinmpnn_v_48_020.pt")
       = w_files littered_world
           !! OS.realpath (joinpath (joinpath models_dir "proteinmpnn")
                             "proteinmpnn_v_48_020.pt").
Proof.
  destruct (cleanup_clears_entry_temp_paths models_dir "proteinmpnn"
              "proteinmpnn_v_48_020.pt" littered_world
              (cleanup_result (cleanup_temp_files models_dir littered_world))
              ["params_model_1.npz.tmp"%string])
    as (temp & Ht & Hgone & Hkept).
  - reflexivity.
  - reflexivity.
  - reflexivity.
  - vm_compute. reflexivity.
  - exists temp. split; [exact Ht|]. split; [exact Hgone|].
    apply Hkept. reflexivity.
Defined.

(** X14.  After [cleanup_temp_files] a second call finds nothing to
    remove: it prints no name and leaves everything as it is. *)

Theorem cleanup_temp_files_idempotent
    (models_dir : path) (w w' : world) (names : list string) :
  cleanup_temp_files models_dir w = Some (names, w') ->
  cleanup_temp_files models_dir w' = Some ([], w').
Proof.
  intros H. pose proof (cleanup_lookup _ _ _ _ H) as (Hr & Hd & Ht & Hl).
  assert (Hsub : forall k f, w_files w' !! k = Some f ->
                   w_files w !! k = Some f /\ temp_leftover models_dir k = false).
  { intros k f Hk. rewrite Hl in Hk.
    now destruct (temp_leftover models_dir k). }
  rewrite cleanup_returns.
  - f_equal. f_equal.
    + rewrite filter_nothing; [reflexivity|].
      intros [k f] Hin. apply list_elem_of_In, elem_of_map_to_list in Hin.
      now apply Hsub in Hin.
    + replace (filter _ (w_files w')) with (w_files w');
        [now destruct w'|].
      apply map_eq. intros k.
      rewrite (filter_lookup (temp_leftover models_dir)), Hl.
      now destruct (temp_leftover models_dir k).
  - rewrite Hl, Hd. now destruct (temp_leftover _ _).
  - intros k f Hk. apply Hsub in Hk as [Hk _]. eapply Ht, Hk.
Qed.


Lemma cleanup_temp_files_idempotent_witness :
  cleanup_temp_files models_dir
    (cleanup_result (cleanup_temp_files models_dir littered_world))
  = Some ([], cleanup_result (cleanup_temp_files models_dir littered_world)).
Proof.
  apply (cleanup_temp_files_idempotent models_dir littered_world
           (cleanup_result (cleanup_temp_files models_dir littered_world))
           ["params_model_1.npz.tmp"%string]).
  vm_compute. reflexivity.
Defined.

(** ** Status *)

(** X15.  In a catalog with distinct category names, after a run of a
    category in which every entry was skipped as valid or fetched and
    renamed, [get_model_info] lists the category with its directory and its
    file names in order, and every file is reported to exist: the category
    is shown as complete. *)

Theorem status_complete_after_run
    (net : network) (statvfs : gmap path file -> option (Z * Z))
    (models : catalog) (category : string) (model_config : category_config)
    (w w1 : world) (r : category_result) (s : category_status) :
  NoDup (map fst models) ->
  lookup_category models category = Some model_config ->
  clean_dir (dir model_config) = true ->
  (forall n, In n (map fst (files model_config)) -> simple_name n = true) ->
  NoDup (map fst (files model_config)) ->
  (forall n m, In n (map fst (files model_config)) ->
               In m (map fst (files model_config)) -> n <> m +:+ ".tmp") ->
  download_model_category net statvfs models category w = Some (r, w1) ->
  map fst (report r) = map fst (files model_config) ->
  (forall n o, In (n, o) (report r) -> o = AlreadyValid \/ o = Promoted) ->
  In (category, s) (get_model_info models w1) ->
  cs_dir s = dir model_config
  /\ map fst (cs_files s) = map fst (files model_config)
  /\ all_exist s = true.
Proof.
  intros Hkeys Hl Hd Hs Hnd Hti Hrun Hnames Hos Hin.
  assert (Hvalid : forall n i, In (n, i) (files model_config) ->
     valid_file (w_files w1) (joinpath (dir model_config) n) (size_gb i)
     = true).
  { apply download_model_category_anatomy in Hrun.
    destruct Hrun as [(Hrep & _) | (cfg & fl & w2 & Hl' & _ & Hp & _ & Hf & _)].
    - rewrite Hrep in Hnames. cbn in Hnames.
      destruct (files model_config); [intros ? ? []|discriminate].
    - rewrite Hl in Hl'. injection Hl' as <-. rewrite Hf.
      exact (proj1 (process_files_done net _ _ _ _ _ _ _ Hd Hs Hnd Hti Hp Hos)). }
  unfold get_model_info in Hin. apply in_map_iff in Hin as ([c cfg] & E & Hc).
  cbn [fst snd] in E. injection E as -> <-.
  apply lookup_category_In in Hl.
  rewrite (unique_key models category cfg model_config Hkeys Hc Hl).
  cbn [cs_dir cs_files]. split; [reflexivity|]. split.
  - rewrite map_map. reflexivity.
  - unfold all_exist. cbn [cs_files]. apply forallb_forall.
    intros [n st] Hst. apply in_map_iff in Hst as ([n' i] & E & Hni).
    cbn [fst snd] in E. injection E as -> <-. cbn [snd].
    now apply (valid_file_exists _ _ (size_gb i)), Hvalid.
Qed.


Lemma status_complete_after_run_witness :
  cs_dir plain_status = dir plain_config
  /\ map fst (cs_files plain_status) = map fst (files plain_config)
  /\ all_exist plain_status = true.
Proof.
  apply (status_complete_after_run (always (Complete half_gib)) statvfs_raises
           plain_models "plain" plain_config empty_world
           (run_world plain_first) (run_result plain_first) plain_status).
  - repeat constructor. cbn. rewrite list_elem_of_In. intros [].
  - reflexivity.
  - reflexivity.
  - intros n [<-|[<-|[]]]; reflexivity.
  - repeat constructor; cbn; rewrite ?list_elem_of_In; cbn; intuition discriminate.
  - intros n m [<-|[<-|[]]] [<-|[<-|[]]]; discriminate.
  - vm_compute. reflexivity.
  - vm_compute. reflexivity.
  - intros n o. vm_compute.
    intros [[= <- <-]|[[= <- <-]|[]]]; [right | right]; reflexivity.
  - left. vm_compute. reflexivity.
Defined.

(** X16.  An entry that [get_model_info] reports as missing is not
    skipped by the runner: when the loop body returns it has made between
    one and three requests for it. *)

Theorem missing_file_is_fetched
    (net : network) (model_dir : path) (filename : string) (info : file_info)
    (fl fl' : flags) (w w' : world) (o : outcome) :
  fs_exists (file_status_of model_dir filename w) = false ->
  process_file net model_dir filename info fl w = Some (o, fl', w') ->
  attempted o = true
  /\ (w_requests w < w_requests w' <= w_requests w + 3)%nat.
Proof.
  intros Hm H.
  pose proof (process_file_requests _ _ _ _ _ _ _ _ _ H) as Hreq.
  apply process_file_anatomy in H.
  destruct H as [(_ & Hv & _) | (_ & temp & wd & b & _ & _ & H)].
  - apply (valid_file_exists _ _ (size_gb info)) in Hv. congruence.
  - destruct H as [(_ & -> & _) | [(_ & _ & -> & _) |
      [(_ & _ & _ & -> & _) |
      [(_ & _ & _ & _ & -> & _) | (_ & _ & _ & _ & -> & _)]]]];
      now split.
Qed.


Lemma missing_file_is_fetched_witness :
  attempted (step_outcome alphafold_step) = true
  /\ (w_requests empty_world < w_requests (step_world alphafold_step)
      <= w_requests empty_world + 3)%nat.
Proof.
  apply (missing_file_is_fetched (always (Complete alphafold_archive))
           alphafold_dir "params_model_1.npz" alphafold_info (Flags true true)
           (step_flags alphafold_step) empty_world
           (step_world alphafold_step) (step_outcome alphafold_step)).
  - reflexivity.
  - vm_compute. reflexivity.
Defined.
